(** * Signals: an algebra of windowed, composable time-domain signals

    Shallow embedding of [src/signals/base_signal.py] and the properties
    the specification states about it.

    The Python program computes with the built-in numbers [bool], [int]
    and [float].  They are modelled here as they behave in CPython:
    [int] is unbounded ([Z]), [float] is IEEE-754 binary64 (the
    [spec_float] model of the Standard Library, round-to-nearest-even),
    and [bool] is the subclass of [int] with the two values [False] and
    [True].  An evaluation can raise, so every evaluation lives in a
    small error monad. *)

From Stdlib Require Import ZArith QArith Bool List String Lia.
From Stdlib Require Import Floats.SpecFloat.
Import ListNotations.

Set Implicit Arguments.

(* ===================================================================== *)
(** * Exceptions and the error monad *)
(* ===================================================================== *)

(** The exceptions the program and the built-in arithmetic can raise. *)
Inductive exn : Type :=
| TypeError (msg : string)
| ZeroDivisionError
| OverflowError
| NotImplementedError.

(** [inl e]: the computation raised [e]; [inr x]: it returned [x]. *)
Definition result (A : Type) : Type := (exn + A)%type.

Definition ret {A : Type} (x : A) : result A := inr x.
Definition raise {A : Type} (e : exn) : result A := inl e.

Definition bind {A B : Type} (c : result A) (k : A -> result B) : result B :=
  match c with
  | inl e => inl e
  | inr x => k x
  end.

Declare Scope py_scope.
Delimit Scope py_scope with py.
Notation "x <- c ;; k" := (bind c (fun x => k))
  (at level 61, c at next level, right associativity) : py_scope.
Local Open Scope py_scope.

Definition returns {A : Type} (c : result A) : bool :=
  match c with inr _ => true | inl _ => false end.

(** [mapM f l] runs [f] on the elements of [l] from left to right and
    collects the results; the first exception aborts the traversal. *)
Fixpoint mapM {A B : Type} (f : A -> result B) (l : list A) : result (list B) :=
  match l with
  | [] => ret []
  | x :: xs => y <- f x ;; ys <- mapM f xs ;; ret (y :: ys)
  end.

(* ===================================================================== *)
(** * Python numbers *)
(* ===================================================================== *)

Module PyNum.

(** binary64 *)
Definition prec : Z := 53.
Definition emax : Z := 1024.

(** [spec_float] has one not-a-number: the sign and the payload that a
    binary64 not-a-number carries are not modelled, so nothing below
    speaks of the bits of a not-a-number. *)
Inductive pynum : Type :=
| PyBool (b : bool)
| PyInt (z : Z)
| PyFloat (f : spec_float).

Definition fzero : spec_float := S754_zero false.
Definition PINF : pynum := PyFloat (S754_infinity false).
Definition NINF : pynum := PyFloat (S754_infinity true).

(** A float datum is well formed when its mantissa and exponent are
    those of a binary64 number; the arithmetic below preserves this. *)
Definition wf (n : pynum) : bool :=
  match n with
  | PyFloat f => valid_binary prec emax f
  | _ => true
  end.

Definition is_nan (n : pynum) : bool :=
  match n with
  | PyFloat S754_nan => true
  | _ => false
  end.

(** ** Conversions *)

(** [bool] and [int] operands take part in integer arithmetic. *)
Definition as_int (n : pynum) : option Z :=
  match n with
  | PyBool b => Some (Z.b2z b)
  | PyInt z => Some z
  | PyFloat _ => None
  end.

(** [int -> float]: correctly rounded, [OverflowError] when the integer
    is too large for a binary64 ("int too large to convert to float"). *)
Definition float_of_int (z : Z) : result spec_float :=
  match binary_normalize prec emax z 0 false with
  | S754_infinity _ => raise OverflowError
  | f => ret f
  end.

Definition as_float (n : pynum) : result spec_float :=
  match n with
  | PyFloat f => ret f
  | PyInt z => float_of_int z
  | PyBool b => float_of_int (Z.b2z b)
  end.

(** ** Arithmetic: [+], [-], [*], [/] *)

(** Two integers stay integers; as soon as one operand is a float the
    other one is converted and the operation is the binary64 one.  Float
    addition, subtraction and multiplication never raise. *)
Definition arith (iop : Z -> Z -> Z)
    (fop : spec_float -> spec_float -> spec_float) (a b : pynum) : result pynum :=
  match as_int a, as_int b with
  | Some x, Some y => ret (PyInt (iop x y))
  | _, _ =>
      x <- as_float a ;;
      y <- as_float b ;;
      ret (PyFloat (fop x y))
  end.

Definition py_add : pynum -> pynum -> result pynum := arith Z.add (SFadd prec emax).
Definition py_sub : pynum -> pynum -> result pynum := arith Z.sub (SFsub prec emax).
Definition py_mul : pynum -> pynum -> result pynum := arith Z.mul (SFmul prec emax).

Definition fis_zero (f : spec_float) : bool :=
  match f with
  | S754_zero _ => true
  | _ => false
  end.

(** [int / int] is the correctly rounded quotient of the two integers
    (not the quotient of their conversions); a zero result takes the
    sign of the operands. *)
Definition int_true_divide (x y : Z) : result pynum :=
  if (y =? 0)%Z then raise ZeroDivisionError
  else
    let sx := (x <? 0)%Z in
    let sy := (y <? 0)%Z in
    match x with
    | Z0 => ret (PyFloat (S754_zero (xorb sx sy)))
    | _ =>
        match SFdiv prec emax (S754_finite sx (Z.to_pos (Z.abs x)) 0)
                              (S754_finite sy (Z.to_pos (Z.abs y)) 0) with
        | S754_infinity _ => raise OverflowError
        | q => ret (PyFloat q)
        end
    end.

(** [float / float] raises [ZeroDivisionError] on a zero divisor, of
    either sign, whatever the dividend: Python does not return the
    IEEE-754 infinity or not-a-number here. *)
Definition py_truediv (a b : pynum) : result pynum :=
  match as_int a, as_int b with
  | Some x, Some y => int_true_divide x y
  | _, _ =>
      x <- as_float a ;;
      y <- as_float b ;;
      if fis_zero y then raise ZeroDivisionError
      else ret (PyFloat (SFdiv prec emax x y))
  end.

(** ** Comparisons *)

(** Python compares numbers by their exact mathematical value, also an
    [int] with a [float]; a not-a-number compares false with everything.
    [to_xreal] gives that value on the extended rational line. *)
Inductive xreal : Type :=
| XNegInf
| XFin (q : Q)
| XPosInf.

Definition float_value (s : bool) (m : positive) (e : Z) : Q :=
  let n := if s then Zneg m else Zpos m in
  match e with
  | Z0 => inject_Z n
  | Zpos p => inject_Z (n * 2 ^ Zpos p)
  | Zneg p => Qmake n (2 ^ p)
  end.

Definition to_xreal (n : pynum) : option xreal :=
  match n with
  | PyBool b => Some (XFin (inject_Z (Z.b2z b)))
  | PyInt z => Some (XFin (inject_Z z))
  | PyFloat (S754_zero _) => Some (XFin 0)
  | PyFloat (S754_infinity s) => Some (if s then XNegInf else XPosInf)
  | PyFloat S754_nan => None
  | PyFloat (S754_finite s m e) => Some (XFin (float_value s m e))
  end.

Definition xle (a b : xreal) : bool :=
  match a, b with
  | XNegInf, _ => true
  | _, XPosInf => true
  | XFin p, XFin q => Qle_bool p q
  | _, _ => false
  end.

Definition xlt (a b : xreal) : bool := negb (xle b a).

(** The order that [xle] decides. *)
Definition xle_prop (a b : xreal) : Prop :=
  match a, b with
  | XNegInf, _ => True
  | _, XPosInf => True
  | XFin p, XFin q => (p <= q)%Q
  | _, _ => False
  end.

Definition compare_with (r : xreal -> xreal -> bool) (a b : pynum) : bool :=
  match to_xreal a, to_xreal b with
  | Some x, Some y => r x y
  | _, _ => false
  end.

(** [a <= b], [a < b], [a == b] *)
Definition py_le : pynum -> pynum -> bool := compare_with xle.
Definition py_lt : pynum -> pynum -> bool := compare_with xlt.
Definition py_eq : pynum -> pynum -> bool :=
  compare_with (fun x y => xle x y && xle y x).

End PyNum.
Import PyNum.

(* ===================================================================== *)
(** * Dataclass fields and the generated constructor *)
(* ===================================================================== *)

(** [Signal] and [Const] are [@dataclass] classes: their constructor is
    generated from the annotated fields.  A field that a subclass
    declares again keeps the position it has in the base class and only
    takes the new default; a new field is appended. *)
Module Dataclass.

Local Open Scope string_scope.

(** name and default value *)
Definition field : Type := (string * pynum)%type.

Fixpoint set_default (name : string) (d : pynum) (fs : list field)
  : option (list field) :=
  match fs with
  | [] => None
  | (n, d0) :: rest =>
      if String.eqb n name then Some ((n, d) :: rest)
      else option_map (cons (n, d0)) (set_default name d rest)
  end.

Definition add_field (fs : list field) (f : field) : list field :=
  match set_default (fst f) (snd f) fs with
  | Some fs' => fs'
  | None => (fs ++ [f])%list
  end.

Definition fields (inherited own : list field) : list field :=
  fold_left add_field own inherited.

Fixpoint lookup (name : string) (l : list (string * pynum)) : option pynum :=
  match l with
  | [] => None
  | (n, v) :: rest => if String.eqb n name then Some v else lookup name rest
  end.

(** Positional arguments fill the fields in order. *)
Fixpoint bind_positional (fs : list field) (args : list pynum)
  : result (list (string * pynum)) :=
  match args, fs with
  | [], _ => ret []
  | a :: args', (n, _) :: fs' =>
      bound <- bind_positional fs' args' ;;
      ret ((n, a) :: bound)
  | _ :: _, [] => raise (TypeError "__init__() got too many positional arguments")
  end.

(** Keyword arguments fill the field they name, which must exist and be
    still unbound. *)
Fixpoint bind_keywords (fs : list field) (bound kwargs : list (string * pynum))
  : result (list (string * pynum)) :=
  match kwargs with
  | [] => ret bound
  | (n, v) :: rest =>
      match lookup n fs, lookup n bound with
      | None, _ => raise (TypeError "__init__() got an unexpected keyword argument")
      | Some _, Some _ => raise (TypeError "__init__() got multiple values for argument")
      | Some _, None => bind_keywords fs ((n, v) :: bound) rest
      end
  end.

Definition init (fs : list field) (args : list pynum) (kwargs : list (string * pynum))
  : result (list (string * pynum)) :=
  bound <- bind_positional fs args ;;
  bind_keywords fs bound kwargs.

(** The attribute is the argument bound to it, or else the default. *)
Definition attr (fs : list field) (bound : list (string * pynum)) (name : string)
  : pynum :=
  match lookup name bound with
  | Some v => v
  | None =>
      match lookup name fs with
      | Some d => d
      | None => PyFloat fzero
      end
  end.

End Dataclass.

(* ===================================================================== *)
(** * Signal nodes *)
(* ===================================================================== *)

(** The classes of the module:
    - [Base]: a direct instance of [BaseSignal], which has no evaluation
      rule;
    - [Const]: the constant leaf, with its fields in constructor order;
    - [Leaf]: an instance of any other concrete subclass of [Signal],
      given by its class name and its local rule [_signal];
    - the four [TwoSidedOperation] classes. *)
Inductive signal : Type :=
| Base
| Const (t_start t_end value : pynum)
| Leaf (cls : string) (t_start t_end : pynum) (_signal : pynum -> result pynum)
| SumOfSignals (lhs rhs : signal)
| DifferenceOfSignals (lhs rhs : signal)
| ProductOfSignals (lhs rhs : signal)
| DivisionOfSignals (lhs rhs : signal).

(** An operand of an arithmetic operator: a signal, a number, or an
    object of some other type (a [str], [None], a list, ...), of which
    only the name of its type matters. *)
Inductive pyobj : Type :=
| OSignal (s : signal)
| ONum (n : pynum)
| OOther (type_name : string).

Module Signal.

Local Open Scope string_scope.

(** [t_start: float = 0.0], [t_end: float = PINF] *)
Definition fields : list Dataclass.field :=
  [("t_start", PyFloat fzero); ("t_end", PINF)].

(** [Signal.__call__]: the window gate around the local rule. *)
Definition __call__ (t_start t_end : pynum) (_signal : pynum -> result pynum)
    (t : pynum) : result pynum :=
  if py_le t_start t && py_lt t t_end then
    tau <- py_sub t t_start ;;
    _signal tau
  else ret (PyFloat fzero).

End Signal.

Module ConstSignal.

Local Open Scope string_scope.

(** The fields [Const] declares itself: [value: float = 0.0] and
    [t_start: float = NINF], in this order. *)
Definition own_fields : list Dataclass.field :=
  [("value", PyFloat fzero); ("t_start", NINF)].

Definition fields : list Dataclass.field :=
  Dataclass.fields Signal.fields own_fields.

(** Calling the class [Const] with positional and keyword arguments. *)
Definition new (args : list pynum) (kwargs : list (string * pynum)) : result signal :=
  bound <- Dataclass.init fields args kwargs ;;
  ret (Const (Dataclass.attr fields bound "t_start")
             (Dataclass.attr fields bound "t_end")
             (Dataclass.attr fields bound "value")).

(** [Const(value=other)], as every operator builds it *)
Definition of_value (other : pynum) : signal := Const NINF PINF other.

(** [Const._signal] *)
Definition _signal (value : pynum) (t : pynum) : result pynum := ret value.

End ConstSignal.

(** [s(t)]: evaluation at one timestamp. *)
Fixpoint call (s : signal) (t : pynum) : result pynum :=
  match s with
  | Base => raise NotImplementedError
  | Const t_start t_end value =>
      Signal.__call__ t_start t_end (ConstSignal._signal value) t
  | Leaf _ t_start t_end _signal =>
      Signal.__call__ t_start t_end _signal t
  | SumOfSignals lhs rhs =>
      l <- call lhs t ;; r <- call rhs t ;; py_add l r
  | DifferenceOfSignals lhs rhs =>
      l <- call lhs t ;; r <- call rhs t ;; py_sub l r
  | ProductOfSignals lhs rhs =>
      l <- call lhs t ;; r <- call rhs t ;; py_mul l r
  | DivisionOfSignals lhs rhs =>
      l <- call lhs t ;; r <- call rhs t ;; py_truediv l r
  end.

(* ===================================================================== *)
(** * [np.array] on a list of Python numbers *)
(* ===================================================================== *)

(** [eval_on] hands the list of results to [np.array], which stores
    them in one array with one element type for all of them.  The
    element type is found from the values: a [bool] is [bool], an [int]
    is [int64] when it fits, else [uint64] when it fits, else a Python
    object, a [float] is [float64]; the types of all elements are then
    promoted to a common one.  The empty list gives an empty [float64]
    array. *)
Module NumPy.

Inductive dtype : Type :=
| DBool
| DInt64
| DUInt64
| DFloat64
| DObject.

Definition scalar_dtype (n : pynum) : dtype :=
  match n with
  | PyBool _ => DBool
  | PyInt z =>
      if (- 2 ^ 63 <=? z)%Z && (z <? 2 ^ 63)%Z then DInt64
      else if (0 <=? z)%Z && (z <? 2 ^ 64)%Z then DUInt64
      else DObject
  | PyFloat _ => DFloat64
  end.

(** An object beside anything is an object; [bool] gives way to every
    other type; a float beside an integer is [float64]; a signed beside
    an unsigned 64-bit integer is [float64] too. *)
Definition promote (a b : dtype) : dtype :=
  match a, b with
  | DObject, _ | _, DObject => DObject
  | DBool, d | d, DBool => d
  | DFloat64, _ | _, DFloat64 => DFloat64
  | DInt64, DInt64 => DInt64
  | DUInt64, DUInt64 => DUInt64
  | DInt64, DUInt64 | DUInt64, DInt64 => DFloat64
  end.

Definition result_dtype (l : list pynum) : dtype :=
  match l with
  | [] => DFloat64
  | x :: xs => fold_left promote (map scalar_dtype xs) (scalar_dtype x)
  end.

(** The value stored for [n] in an array of element type [d]: a [bool]
    becomes [0] or [1] in an integer array, a [bool] and an [int]
    become the nearest float in a [float64] array, and an object array
    keeps the Python value.  (An [int] that has no float value never
    meets [float64]: its own type is the object type.) *)
Definition to_dtype (d : dtype) (n : pynum) : pynum :=
  match d with
  | DBool | DObject => n
  | DInt64 | DUInt64 =>
      match n with
      | PyBool b => PyInt (Z.b2z b)
      | _ => n
      end
  | DFloat64 =>
      match as_float n with
      | inr f => PyFloat f
      | inl _ => n
      end
  end.

Record ndarray : Type := { dtype_of : dtype; items : list pynum }.

Definition array (l : list pynum) : ndarray :=
  {| dtype_of := result_dtype l;
     items := map (to_dtype (result_dtype l)) l |}.

End NumPy.

(* ===================================================================== *)
(** * The operators of [BaseSignal] *)
(* ===================================================================== *)

Module BaseSignal.

Local Open Scope string_scope.

Definition module_name : string := "signals.base_signal".

Definition class_name (s : signal) : string :=
  match s with
  | Base => module_name ++ ".BaseSignal"
  | Const _ _ _ => module_name ++ ".Const"
  | Leaf cls _ _ _ => cls
  | SumOfSignals _ _ => module_name ++ ".SumOfSignals"
  | DifferenceOfSignals _ _ => module_name ++ ".DifferenceOfSignals"
  | ProductOfSignals _ _ => module_name ++ ".ProductOfSignals"
  | DivisionOfSignals _ _ => module_name ++ ".DivisionOfSignals"
  end.

Definition type_name (o : pyobj) : string :=
  match o with
  | OSignal s => class_name s
  | ONum (PyBool _) => "bool"
  | ONum (PyInt _) => "int"
  | ONum (PyFloat _) => "float"
  | OOther ty => ty
  end.

(** What the f-string [{type(x)}] prints. *)
Definition type_of (o : pyobj) : string := "<class '" ++ type_name o ++ "'>".

(** The message of the [TypeError] of an operator: a first sentence,
    then the operator and the types of its two operands as written. *)
Definition unsupported (what op : string) (left right : pyobj) : exn :=
  TypeError (what ++ " with Signal only support for [SignalOperations | float | int]. "
             ++ "Operand " ++ op ++ " was called for types: "
             ++ type_of left ++ " " ++ op ++ " " ++ type_of right).

Definition __add__ (self : signal) (other : pyobj) : result signal :=
  match other with
  | OSignal o => ret (SumOfSignals self o)
  | ONum n => ret (SumOfSignals self (ConstSignal.of_value n))
  | OOther _ => raise (unsupported "Addition" "+" (OSignal self) other)
  end.

Definition __radd__ (self : signal) (other : pyobj) : result signal :=
  __add__ self other.

Definition __mul__ (self : signal) (other : pyobj) : result signal :=
  match other with
  | OSignal o => ret (ProductOfSignals self o)
  | ONum n => ret (ProductOfSignals self (ConstSignal.of_value n))
  | OOther _ => raise (unsupported "Multiplication" "*" (OSignal self) other)
  end.

Definition __rmul__ (self : signal) (other : pyobj) : result signal :=
  __mul__ self other.

Definition __sub__ (self : signal) (other : pyobj) : result signal :=
  match other with
  | OSignal o => ret (DifferenceOfSignals self o)
  | ONum n => ret (DifferenceOfSignals self (ConstSignal.of_value n))
  | OOther _ => raise (unsupported "Addition" "-" (OSignal self) other)
  end.

Definition __rsub__ (self : signal) (other : pyobj) : result signal :=
  match other with
  | OSignal o => ret (DifferenceOfSignals o self)
  | ONum n => ret (DifferenceOfSignals (ConstSignal.of_value n) self)
  | OOther _ => raise (unsupported "Addition" "-" other (OSignal self))
  end.

Definition __truediv__ (self : signal) (other : pyobj) : result signal :=
  match other with
  | OSignal o => ret (DivisionOfSignals self o)
  | ONum n => ret (DivisionOfSignals self (ConstSignal.of_value n))
  | OOther _ => raise (unsupported "Addition" "/" (OSignal self) other)
  end.

Definition __rtruediv__ (self : signal) (other : pyobj) : result signal :=
  match other with
  | OSignal o => ret (DivisionOfSignals o self)
  | ONum n => ret (DivisionOfSignals (ConstSignal.of_value n) self)
  | OOther _ => raise (unsupported "Addition" "/" other (OSignal self))
  end.

(** [eval_on]: the list comprehension over the timestamps, in order,
    and [np.array] on its result.  The timestamps are a sequence of
    Python numbers. *)
Definition eval_on (self : signal) (t : list pynum) : result NumPy.ndarray :=
  rs <- mapM (call self) t ;;
  ret (NumPy.array rs).

End BaseSignal.

(** The expression [x op y] applied to a built signal, for evaluation. *)
Definition call_built (c : result signal) (t : pynum) : result pynum :=
  s <- c ;; call s t.

(* ===================================================================== *)
(** * Vocabulary of the specification *)
(* ===================================================================== *)

(** A windowed node, seen as its window and its local rule. *)
Definition window_of (s : signal)
  : option (pynum * pynum * (pynum -> result pynum)) :=
  match s with
  | Const t_start t_end value => Some (t_start, t_end, ConstSignal._signal value)
  | Leaf _ t_start t_end _signal => Some (t_start, t_end, _signal)
  | _ => None
  end.

(** [t_start <= t < t_end] *)
Definition in_window (t_start t_end t : pynum) : bool :=
  py_le t_start t && py_lt t t_end.

(** A time below [+infinity] that has a float value: every [bool],
    every [float] except [+infinity] and the not-a-number, and every
    [int] that converts to a float. *)
Definition regular_time (t : pynum) : bool :=
  py_lt t PINF && returns (as_float t).

(** [1.0], which is also [float(1)] *)
Definition fone : spec_float := S754_finite false 4503599627370496 (-52).

(** [sub] occurs in [s]. *)
Definition contains (sub s : string) : Prop :=
  exists pre post, s = (pre ++ sub ++ post)%string.

(** The message of a [TypeError] names the operator and the types of
    both operands. *)
Definition names_operation (msg op : string) (left right : pyobj) : Prop :=
  contains ("Operand " ++ op ++ " was called")%string msg /\
  contains (BaseSignal.type_of left ++ " " ++ op ++ " " ++ BaseSignal.type_of right)%string msg.

(** A construction that raises such a [TypeError] and builds nothing. *)
Definition rejects (c : result signal) (op : string) (left right : pyobj) : Prop :=
  exists msg, c = raise (TypeError msg) /\ names_operation msg op left right.

(** [a = Const(...); b = Const(...); s = a + b; s(t)] *)
Definition const_sum (args_a args_b : list pynum)
    (kw_a kw_b : list (string * pynum)) (t : pynum) : result pynum :=
  a <- ConstSignal.new args_a kw_a ;;
  b <- ConstSignal.new args_b kw_b ;;
  s <- BaseSignal.__add__ a (OSignal b) ;;
  call s t.

(** [(a + Const(...))(t)] and [(a * Const(...))(t)] *)
Definition plus_const (a : signal) (args : list pynum)
    (kwargs : list (string * pynum)) (t : pynum) : result pynum :=
  c <- ConstSignal.new args kwargs ;;
  s <- BaseSignal.__add__ a (OSignal c) ;;
  call s t.

Definition times_const (a : signal) (args : list pynum)
    (kwargs : list (string * pynum)) (t : pynum) : result pynum :=
  c <- ConstSignal.new args kwargs ;;
  s <- BaseSignal.__mul__ a (OSignal c) ;;
  call s t.

(** [s] contains a direct instance of [BaseSignal]. *)
Fixpoint has_base (s : signal) : bool :=
  match s with
  | Base => true
  | Const _ _ _ | Leaf _ _ _ _ => false
  | SumOfSignals l r | DifferenceOfSignals l r
  | ProductOfSignals l r | DivisionOfSignals l r => has_base l || has_base r
  end.

(** [s] is built with [+], [-] and [*] from windowed leaves that are all
    outside their window at [t]. *)
Fixpoint quiet (s : signal) (t : pynum) : bool :=
  match s with
  | Const t_start t_end _ | Leaf _ t_start t_end _ => negb (in_window t_start t_end t)
  | SumOfSignals l r | DifferenceOfSignals l r | ProductOfSignals l r =>
      quiet l t && quiet r t
  | Base | DivisionOfSignals _ _ => false
  end.

(** [s] is built with [+], [-] and [*] from constant leaves whose three
    fields are floats. *)
Fixpoint float_only (s : signal) : bool :=
  match s with
  | Const (PyFloat _) (PyFloat _) (PyFloat _) => true
  | SumOfSignals l r | DifferenceOfSignals l r | ProductOfSignals l r =>
      float_only l && float_only r
  | _ => false
  end.

(** A number that is neither an infinity nor a not-a-number. *)
Definition is_finite (n : pynum) : bool :=
  match n with
  | PyFloat (S754_infinity _) | PyFloat S754_nan => false
  | _ => true
  end.

(** [s] is built with the four operators from constant leaves only. *)
Fixpoint const_expr (s : signal) : bool :=
  match s with
  | Const _ _ _ => true
  | Base | Leaf _ _ _ _ => false
  | SumOfSignals l r | DifferenceOfSignals l r
  | ProductOfSignals l r | DivisionOfSignals l r => const_expr l && const_expr r
  end.

(** The exceptions of the arithmetic. *)
Definition arithmetic_error (e : exn) : bool :=
  match e with
  | ZeroDivisionError | OverflowError => true
  | _ => false
  end.

(** [n] is a [float]. *)
Definition is_float (n : pynum) : bool :=
  match n with
  | PyFloat _ => true
  | _ => false
  end.

(** [n] is not an [int] stored in a [float64] array, the one case in
    which [np.array] rounds. *)
Definition no_int_to_float (d : NumPy.dtype) (n : pynum) : bool :=
  match d, n with
  | NumPy.DFloat64, PyInt _ => false
  | _, _ => true
  end.

(* ===================================================================== *)
(** * Facts about the error monad *)
(* ===================================================================== *)

Lemma bind_ret_l {A B : Type} (x : A) (k : A -> result B) :
  bind (ret x) k = k x.
Proof. reflexivity. Qed.

Lemma bind_inr_inv {A B : Type} (c : result A) (k : A -> result B) (y : B) :
  bind c k = inr y -> exists x, c = inr x /\ k x = inr y.
Proof.
  destruct c as [e | x]; simpl; intros H.
  - discriminate.
  - exists x. split; [reflexivity | exact H].
Qed.

Lemma returns_true_inv {A : Type} (c : result A) :
  returns c = true -> exists x, c = inr x.
Proof.
  destruct c as [e | x]; simpl; intros H.
  - discriminate.
  - exists x. reflexivity.
Qed.

(* ===================================================================== *)
(** * The order of Python numbers *)
(* ===================================================================== *)

Module Order.

Lemma xle_true (a b : xreal) : xle a b = true <-> xle_prop a b.
Proof.
  destruct a, b; simpl; try tauto; try (split; [discriminate | contradiction]).
  apply Qle_bool_iff.
Qed.

Lemma xle_false (a b : xreal) : xle a b = false <-> ~ xle_prop a b.
Proof.
  rewrite <- xle_true. destruct (xle a b); split; intros H; try reflexivity;
    try discriminate; try (intros H'; discriminate).
  exfalso. apply H. reflexivity.
Qed.

Lemma xle_prop_refl (a : xreal) : xle_prop a a.
Proof. destruct a; simpl; auto. apply Qle_refl. Qed.

Lemma xle_prop_trans (a b c : xreal) : xle_prop a b -> xle_prop b c -> xle_prop a c.
Proof.
  destruct a, b, c; simpl; auto; try contradiction. apply Qle_trans.
Qed.

Lemma xle_prop_total (a b : xreal) : xle_prop a b \/ xle_prop b a.
Proof.
  destruct a, b; simpl; auto.
  destruct (Qlt_le_dec q q0) as [H | H]; [left; apply Qlt_le_weak, H | right; exact H].
Qed.

Lemma xlt_true (a b : xreal) : xlt a b = true <-> ~ xle_prop b a.
Proof. unfold xlt. rewrite negb_true_iff. apply xle_false. Qed.

(** The three comparisons, read on the values of their operands. *)
Lemma py_le_true (a b : pynum) :
  py_le a b = true <->
  exists x y, to_xreal a = Some x /\ to_xreal b = Some y /\ xle_prop x y.
Proof.
  unfold py_le, compare_with.
  destruct (to_xreal a) as [x |], (to_xreal b) as [y |];
    try (split; [discriminate | intros (x' & y' & H1 & H2 & _); discriminate]).
  rewrite xle_true. split.
  - intros H. exists x, y. auto.
  - intros (x' & y' & H1 & H2 & H). inversion H1; inversion H2; subst. exact H.
Qed.

Lemma py_lt_true (a b : pynum) :
  py_lt a b = true <->
  exists x y, to_xreal a = Some x /\ to_xreal b = Some y /\ ~ xle_prop y x.
Proof.
  unfold py_lt, compare_with.
  destruct (to_xreal a) as [x |], (to_xreal b) as [y |];
    try (split; [discriminate | intros (x' & y' & H1 & H2 & _); discriminate]).
  rewrite xlt_true. split.
  - intros H. exists x, y. auto.
  - intros (x' & y' & H1 & H2 & H). inversion H1; inversion H2; subst. exact H.
Qed.

Lemma py_eq_true (a b : pynum) :
  py_eq a b = true <->
  exists x y, to_xreal a = Some x /\ to_xreal b = Some y /\
              xle_prop x y /\ xle_prop y x.
Proof.
  unfold py_eq, compare_with.
  destruct (to_xreal a) as [x |], (to_xreal b) as [y |];
    try (split; [discriminate | intros (x' & y' & H1 & H2 & _); discriminate]).
  rewrite andb_true_iff, !xle_true. split.
  - intros H. exists x, y. auto.
  - intros (x' & y' & H1 & H2 & H). inversion H1; inversion H2; subst. exact H.
Qed.

(** A number other than a not-a-number equals itself. *)
Lemma py_eq_refl (a : pynum) : is_nan a = false -> py_eq a a = true.
Proof.
  intros H. apply py_eq_true.
  destruct a as [b | z | f]; simpl; try destruct f; try discriminate;
    eexists; eexists; (split; [reflexivity |]); (split; [reflexivity |]);
    split; apply xle_prop_refl.
Qed.

(** [t == t_start] and [t_start < t_end] give [t_start <= t < t_end]. *)
Lemma start_is_inside (t ts te : pynum) :
  py_eq t ts = true -> py_lt ts te = true ->
  py_le ts t && py_lt t te = true.
Proof.
  rewrite py_eq_true, py_lt_true, andb_true_iff, py_le_true, py_lt_true.
  intros (x & y & Hx & Hy & Hxy & Hyx) (y' & z & Hy' & Hz & Hlt).
  rewrite Hy in Hy'. inversion Hy'; subst y'. split.
  - exists y, x. auto.
  - exists x, z. repeat split; auto.
    intros Hzx. apply Hlt. apply xle_prop_trans with x; assumption.
Qed.

(** [t == t_end] excludes [t < t_end]. *)
Lemma end_is_outside (t ts te : pynum) :
  py_eq t te = true -> py_le ts t && py_lt t te = false.
Proof.
  rewrite py_eq_true. intros (x & z & Hx & Hz & Hxz & Hzx).
  apply andb_false_iff. right.
  destruct (py_lt t te) eqn:E; [| reflexivity].
  apply py_lt_true in E. destruct E as (x' & z' & Hx' & Hz' & Hn).
  rewrite Hx in Hx'. rewrite Hz in Hz'. inversion Hx'; inversion Hz'; subst.
  contradiction.
Qed.

(** No time lies in a window with [t_end < t_start]. *)
Lemma reversed_is_empty (t ts te : pynum) :
  py_lt te ts = true -> py_le ts t && py_lt t te = false.
Proof.
  rewrite py_lt_true. intros (z & y & Hz & Hy & Hn).
  destruct (py_le ts t && py_lt t te) eqn:E; [| reflexivity].
  apply andb_true_iff in E. destruct E as [E1 E2].
  apply py_le_true in E1. destruct E1 as (y' & x & Hy' & Hx & Hyx).
  apply py_lt_true in E2. destruct E2 as (x' & z' & Hx' & Hz' & Hzx).
  rewrite Hy in Hy'. rewrite Hx in Hx'. rewrite Hz in Hz'.
  inversion Hy'; inversion Hx'; inversion Hz'; subst.
  destruct (xle_prop_total x' z') as [H | H]; [| contradiction].
  exfalso. apply Hn. apply xle_prop_trans with x'; assumption.
Qed.

End Order.

(* ===================================================================== *)
(** * Facts about binary64 arithmetic *)
(* ===================================================================== *)

Module FloatFacts.

Lemma float_of_int_0 : float_of_int 0 = ret fzero.
Proof. reflexivity. Qed.

Lemma float_of_int_1 : float_of_int 1 = ret fone.
Proof. reflexivity. Qed.

(** [x + 0.0] is [x], up to the sign of a zero. *)
Lemma SFadd_zero_r (x : spec_float) :
  SFadd prec emax x fzero = x \/
  (x = S754_zero true /\ SFadd prec emax x fzero = fzero).
Proof.
  destruct x as [[|] | [|] | | s m e]; simpl; auto.
Qed.

Lemma digits2_pos_iter_xO (k : nat) (m : positive) :
  Zpos (digits2_pos (Nat.iter k xO m)) = (Zpos (digits2_pos m) + Z.of_nat k)%Z.
Proof.
  induction k as [| k IH].
  - simpl. lia.
  - rewrite Nat2Z.inj_succ. simpl Nat.iter. simpl digits2_pos.
    rewrite Pos2Z.inj_succ, IH. lia.
Qed.

Lemma shr_52 (m : positive) :
  iter_pos shr_1 52 (Build_shr_record (Zpos (Nat.iter 52 xO m)) false false)
  = Build_shr_record (Zpos m) false false.
Proof. reflexivity. Qed.

(** [x * 1.0] is [x] for every binary64 number. *)
Lemma SFmul_one_r (s : bool) (m : positive) (e : Z) :
  bounded prec emax m e = true ->
  SFmul prec emax (S754_finite s m e) fone = S754_finite s m e.
Proof.
  intros Hb. unfold bounded in Hb. apply andb_true_iff in Hb.
  destruct Hb as [Hc He]. unfold canonical_mantissa in Hc.
  apply Z.eqb_eq in Hc.
  unfold fone, SFmul. rewrite xorb_false_r.
  replace (m * 4503599627370496)%positive with (Nat.iter 52 xO m)
    by (rewrite Pos.mul_comm; reflexivity).
  unfold binary_round_aux, shr_fexp.
  unfold Zdigits2 at 1. rewrite digits2_pos_iter_xO.
  replace (Z.pos (digits2_pos m) + Z.of_nat 52 + (e + -52))%Z
    with (Z.pos (digits2_pos m) + e)%Z by lia.
  rewrite Hc.
  replace (e - (e + -52))%Z with 52%Z by lia.
  unfold shr at 1.
  change (shr_record_of_loc (Z.pos (Nat.iter 52 xO m)) loc_Exact)
    with (Build_shr_record (Z.pos (Nat.iter 52 xO m)) false false).
  rewrite shr_52.
  unfold shr_record_of_loc, loc_of_shr_record, shr_m, round_nearest_even.
  replace (e + -52 + 52)%Z with e by lia.
  unfold Zdigits2. rewrite Hc, Z.sub_diag. unfold shr.
  rewrite He. reflexivity.
Qed.

End FloatFacts.

(* ===================================================================== *)
(** * The constant leaf built from a literal *)
(* ===================================================================== *)

Module ConstFacts.

Lemma regular_time_inv (t : pynum) :
  regular_time t = true ->
  py_le NINF t = true /\ py_lt t PINF = true /\ exists f, as_float t = ret f.
Proof.
  unfold regular_time. rewrite andb_true_iff. intros [Hlt Hf].
  split; [| split].
  - apply Order.py_lt_true in Hlt. destruct Hlt as (x & y & Hx & _ & _).
    apply Order.py_le_true. exists XNegInf, x. simpl. auto.
  - exact Hlt.
  - apply returns_true_inv. exact Hf.
Qed.

(** Subtracting the float [-infinity] needs only the float value of [t]. *)
Lemma py_sub_NINF (t : pynum) (f : spec_float) :
  as_float t = ret f ->
  py_sub t NINF = ret (PyFloat (SFsub prec emax f (S754_infinity true))).
Proof.
  intros Hf. unfold py_sub, arith.
  destruct (as_int t); simpl; rewrite Hf; reflexivity.
Qed.

(** [Const(value=x)] returns [x] at every regular time. *)
Lemma of_value_regular (x t : pynum) :
  regular_time t = true -> call (ConstSignal.of_value x) t = ret x.
Proof.
  intros Ht. apply regular_time_inv in Ht.
  destruct Ht as (Hle & Hlt & f & Hf).
  unfold ConstSignal.of_value. simpl. unfold Signal.__call__.
  rewrite Hle, Hlt. simpl. rewrite (py_sub_NINF t Hf). reflexivity.
Qed.

(** At a time that is not below [+infinity] it is gated to [0.0]. *)
Lemma of_value_gated (x t : pynum) :
  py_lt t PINF = false -> call (ConstSignal.of_value x) t = ret (PyFloat fzero).
Proof.
  intros Ht. unfold ConstSignal.of_value. simpl. unfold Signal.__call__.
  rewrite Ht, andb_false_r. reflexivity.
Qed.

Lemma new_value (x : pynum) :
  ConstSignal.new [] [("value"%string, x)] = ret (ConstSignal.of_value x).
Proof. reflexivity. Qed.

End ConstFacts.

(* ===================================================================== *)
(** * Window gating *)
(* ===================================================================== *)

Module Gating.

Lemma call_windowed (s : signal) (ts te : pynum)
    (local : pynum -> result pynum) (t : pynum) :
  window_of s = Some (ts, te, local) ->
  call s t = Signal.__call__ ts te local t.
Proof.
  destruct s; simpl; intros H; try discriminate; inversion H; subst; reflexivity.
Qed.

(** C1: a windowed node with window [[t_start, t_end)] evaluates, at a
    time [t] with [t_start <= t < t_end], to its local rule applied to
    [t - t_start], and to exactly [0.0] at every other time; a time
    equal to [t_start] is inside a non-empty window and a time equal to
    [t_end] is outside. *)
Theorem window_gating (s : signal) (t_start t_end : pynum)
    (local : pynum -> result pynum) (t : pynum) :
  window_of s = Some (t_start, t_end, local) ->
  (in_window t_start t_end t = true ->
   call s t = (tau <- py_sub t t_start ;; local tau)) /\
  (in_window t_start t_end t = false -> call s t = ret (PyFloat fzero)) /\
  (py_eq t t_start = true -> py_lt t_start t_end = true ->
   call s t = (tau <- py_sub t t_start ;; local tau)) /\
  (py_eq t t_end = true -> call s t = ret (PyFloat fzero)).
Proof.
  intros Hw. rewrite (call_windowed s t Hw).
  unfold Signal.__call__, in_window.
  assert (Hin : py_le t_start t && py_lt t t_end = true ->
                (if py_le t_start t && py_lt t t_end
                 then tau <- py_sub t t_start ;; local tau
                 else ret (PyFloat fzero)) = (tau <- py_sub t t_start ;; local tau)).
  { intros E. rewrite E. reflexivity. }
  assert (Hout : py_le t_start t && py_lt t t_end = false ->
                 (if py_le t_start t && py_lt t t_end
                  then tau <- py_sub t t_start ;; local tau
                  else ret (PyFloat fzero)) = ret (PyFloat fzero)).
  { intros E. rewrite E. reflexivity. }
  repeat split.
  - exact Hin.
  - exact Hout.
  - intros Heq Hlt. apply Hin. apply Order.start_is_inside; assumption.
  - intros Heq. apply Hout. apply Order.end_is_outside. exact Heq.
Qed.

(** [Const(value=5, t_start=2, t_end=5)] at [t = 2] and at [t = 5]. *)
Lemma window_gating_witness :
  window_of (Const (PyInt 2) (PyInt 5) (PyInt 5))
  = Some (PyInt 2, PyInt 5, ConstSignal._signal (PyInt 5)) /\
  call (Const (PyInt 2) (PyInt 5) (PyInt 5)) (PyInt 2) = ret (PyInt 5) /\
  call (Const (PyInt 2) (PyInt 5) (PyInt 5)) (PyInt 5) = ret (PyFloat fzero).
Proof.
  split; [reflexivity |].
  split.
  - exact (proj1 (proj2 (proj2
      (@window_gating (Const (PyInt 2) (PyInt 5) (PyInt 5)) (PyInt 2) (PyInt 5)
         (ConstSignal._signal (PyInt 5)) (PyInt 2) eq_refl))) eq_refl eq_refl).
  - exact (proj2 (proj2 (proj2
      (@window_gating (Const (PyInt 2) (PyInt 5) (PyInt 5)) (PyInt 2) (PyInt 5)
         (ConstSignal._signal (PyInt 5)) (PyInt 5) eq_refl))) eq_refl).
Defined.

(** C9: a window with [t_start > t_end] is accepted by the constructor,
    positionally and by keyword, and every windowed node with such a
    window evaluates to [0.0] at every time. *)
Theorem reversed_window (t_start t_end : pynum) :
  py_lt t_end t_start = true ->
  (forall value,
     ConstSignal.new [t_start; t_end; value] [] = ret (Const t_start t_end value) /\
     ConstSignal.new []
       [("value"%string, value); ("t_start"%string, t_start); ("t_end"%string, t_end)]
     = ret (Const t_start t_end value)) /\
  (forall s local, window_of s = Some (t_start, t_end, local) ->
     forall t, call s t = ret (PyFloat fzero)).
Proof.
  intros Hrev. split.
  - intros value. split; reflexivity.
  - intros s local Hw t. rewrite (call_windowed s t Hw).
    unfold Signal.__call__.
    rewrite (Order.reversed_is_empty t t_start t_end Hrev). reflexivity.
Qed.

(** [Const(value=1, t_start=3, t_end=1)] *)
Lemma reversed_window_witness :
  py_lt (PyInt 1) (PyInt 3) = true /\
  ConstSignal.new [PyInt 3; PyInt 1; PyInt 1] []
  = ret (Const (PyInt 3) (PyInt 1) (PyInt 1)) /\
  call (Const (PyInt 3) (PyInt 1) (PyInt 1)) (PyInt 2) = ret (PyFloat fzero).
Proof.
  split; [reflexivity |].
  destruct (@reversed_window (PyInt 3) (PyInt 1) eq_refl) as [Hnew Hzero].
  split.
  - exact (proj1 (Hnew (PyInt 1))).
  - exact (Hzero (Const (PyInt 3) (PyInt 1) (PyInt 1)) _ eq_refl (PyInt 2)).
Defined.

End Gating.

(* ===================================================================== *)
(** * Batch evaluation *)
(* ===================================================================== *)

Module Batch.

Import NumPy.

Lemma mapM_Forall2 {A B : Type} (f : A -> result B) (l : list A) (rs : list B) :
  mapM f l = ret rs <-> Forall2 (fun x r => f x = ret r) l rs.
Proof.
  revert rs. induction l as [| x xs IH]; intros rs; simpl.
  - split.
    + intros H. inversion H. constructor.
    + intros H. inversion H. reflexivity.
  - split.
    + intros H. apply bind_inr_inv in H. destruct H as (y & Hy & H).
      apply bind_inr_inv in H. destruct H as (ys & Hys & H).
      inversion H; subst. constructor; [exact Hy | apply IH; exact Hys].
    + intros H. inversion H as [| x' r xs' rs' Hr Hrest]; subst.
      rewrite Hr. simpl. apply IH in Hrest. rewrite Hrest. reflexivity.
Qed.

Lemma Forall2_nth {A B : Type} (R : A -> B -> Prop) (l : list A) (rs : list B) :
  Forall2 R l rs ->
  forall i x, nth_error l i = Some x -> exists r, nth_error rs i = Some r /\ R x r.
Proof.
  induction 1 as [| x r l rs Hr _ IH]; intros i y Hi.
  - destruct i; discriminate.
  - destruct i as [| i]; simpl in *.
    + inversion Hi; subst. exists r. auto.
    + apply IH. exact Hi.
Qed.

Lemma mapM_returns {A B : Type} (f : A -> result B) (l : list A) :
  (forall x, In x l -> returns (f x) = true) -> returns (mapM f l) = true.
Proof.
  induction l as [| x xs IH]; intros H; simpl.
  - reflexivity.
  - destruct (returns_true_inv (f x) (H x (or_introl eq_refl))) as [y Hy].
    rewrite Hy. simpl.
    destruct (returns_true_inv (mapM f xs)) as [ys Hys].
    + apply IH. intros z Hz. apply H. right. exact Hz.
    + rewrite Hys. reflexivity.
Qed.

Lemma mapM_raises {A B : Type} (f : A -> result B) (l : list A) (x : A) (e : exn) :
  In x l -> f x = raise e -> returns (mapM f l) = false.
Proof.
  induction l as [| y ys IH]; simpl; intros Hin Hx.
  - contradiction.
  - destruct (f y) as [e' | r] eqn:Ey; simpl; [reflexivity |].
    destruct Hin as [Hy | Hin].
    + subst y. rewrite Hx in Ey. discriminate.
    + specialize (IH Hin Hx). destruct (mapM f ys); [reflexivity | discriminate].
Qed.

Lemma returns_eval_on (s : signal) (ts : list pynum) :
  returns (BaseSignal.eval_on s ts) = returns (mapM (call s) ts).
Proof.
  unfold BaseSignal.eval_on. destruct (mapM (call s) ts); reflexivity.
Qed.

Lemma eval_on_inv (s : signal) (ts : list pynum) (arr : ndarray) :
  BaseSignal.eval_on s ts = ret arr <->
  exists rs, Forall2 (fun t r => call s t = ret r) ts rs /\ arr = array rs.
Proof.
  unfold BaseSignal.eval_on. split.
  - intros H. apply bind_inr_inv in H. destruct H as (rs & Hrs & H).
    exists rs. split; [apply mapM_Forall2; exact Hrs |].
    inversion H. reflexivity.
  - intros (rs & Hrs & E). apply mapM_Forall2 in Hrs. rewrite Hrs, E. reflexivity.
Qed.

(** A float is stored as it is, whatever the element type. *)
Lemma to_dtype_float (d : dtype) (r : pynum) : is_float r = true -> to_dtype d r = r.
Proof.
  destruct r as [b | z | f]; try discriminate. intros _. destruct d; reflexivity.
Qed.

(** What is not an [int] in a [float64] array keeps its value. *)
Lemma to_dtype_value (d : dtype) (r : pynum) :
  is_nan r = false -> no_int_to_float d r = true -> py_eq (to_dtype d r) r = true.
Proof.
  intros Hn Hd. destruct r as [b | z | f].
  - destruct d, b; reflexivity.
  - destruct d; try discriminate; apply Order.py_eq_refl; reflexivity.
  - rewrite to_dtype_float by reflexivity. apply Order.py_eq_refl. exact Hn.
Qed.

Lemma fold_promote_floats (l : list pynum) :
  Forall (fun r => is_float r = true) l ->
  fold_left promote (map scalar_dtype l) DFloat64 = DFloat64.
Proof.
  induction 1 as [| r l Hr _ IH]; simpl; [reflexivity |].
  destruct r as [b | z | f]; try discriminate. exact IH.
Qed.

(** A list of floats becomes a [float64] array of the same floats. *)
Lemma array_of_floats (l : list pynum) :
  Forall (fun r => is_float r = true) l ->
  array l = {| dtype_of := DFloat64; items := l |}.
Proof.
  intros H. unfold array.
  assert (Hd : result_dtype l = DFloat64).
  { destruct H as [| r l Hr Hl]; [reflexivity |]. simpl.
    destruct r as [b | z | f]; try discriminate. apply fold_promote_floats. exact Hl. }
  rewrite Hd. f_equal. clear Hd.
  induction H as [| r l Hr _ IH]; [reflexivity |].
  rewrite map_cons, IH, (to_dtype_float DFloat64 r Hr). reflexivity.
Qed.

(** C8, as the code has it: [s.eval_on(ts)] evaluates [s] at each
    timestamp on its own, in order, and returns exactly when every
    evaluation returns; the result is [np.array] of the values, an
    array of the length of [ts] whose element [i] is [s(ts[i])] stored
    in the common element type of the array.  The element is
    [s(ts[i])] itself when that is a float, and equal to it unless it is
    an [int] stored in a [float64] array; when every evaluation returns
    a float the array is the [float64] array of these floats. *)
Theorem eval_on_pointwise (s : signal) (ts : list pynum) :
  (forall arr, BaseSignal.eval_on s ts = ret arr <->
     exists rs, Forall2 (fun t r => call s t = ret r) ts rs /\ arr = array rs) /\
  (forall arr, BaseSignal.eval_on s ts = ret arr ->
     List.length (items arr) = List.length ts /\
     forall i t, nth_error ts i = Some t ->
       exists r, call s t = ret r /\
         nth_error (items arr) i = Some (to_dtype (dtype_of arr) r) /\
         (is_float r = true -> to_dtype (dtype_of arr) r = r) /\
         (is_nan r = false -> no_int_to_float (dtype_of arr) r = true ->
          py_eq (to_dtype (dtype_of arr) r) r = true)) /\
  (forall arr, BaseSignal.eval_on s ts = ret arr ->
     (forall t, In t ts -> exists f, call s t = ret (PyFloat f)) ->
     dtype_of arr = DFloat64 /\
     Forall2 (fun t r => call s t = ret r) ts (items arr)) /\
  ((forall t, In t ts -> returns (call s t) = true) ->
   returns (BaseSignal.eval_on s ts) = true) /\
  (forall t e, In t ts -> call s t = raise e ->
   returns (BaseSignal.eval_on s ts) = false).
Proof.
  split; [| split; [| split; [| split]]].
  - intros arr. apply eval_on_inv.
  - intros arr H. apply eval_on_inv in H. destruct H as (rs & Hrs & E). subst arr.
    simpl. split.
    + rewrite length_map. symmetry. eapply Forall2_length. exact Hrs.
    + intros i t Hi. destruct (Forall2_nth Hrs i Hi) as (r & Hr & Hcall).
      exists r. split; [exact Hcall |]. split; [apply map_nth_error; exact Hr |].
      split; [apply to_dtype_float | apply to_dtype_value].
  - intros arr H Hfl. apply eval_on_inv in H. destruct H as (rs & Hrs & E).
    assert (Hall : Forall (fun r => is_float r = true) rs).
    { clear E. induction Hrs as [| t r ts rs Hr _ IH]; constructor.
      - destruct (Hfl t (or_introl eq_refl)) as [f Hf].
        rewrite Hf in Hr. inversion Hr. reflexivity.
      - apply IH. intros t' Ht'. apply Hfl. right. exact Ht'. }
    rewrite (array_of_floats Hall) in E. subst arr. simpl. split; [reflexivity |].
    exact Hrs.
  - intros H. rewrite returns_eval_on. apply mapM_returns. exact H.
  - intros t e Hin He. rewrite returns_eval_on. exact (mapM_raises _ _ _ Hin He).
Qed.

(** [Const(value=1.0, t_start=1).eval_on([0, 1, 2])] *)
Lemma eval_on_pointwise_witness :
  BaseSignal.eval_on (Const (PyInt 1) PINF (PyFloat fone)) [PyInt 0; PyInt 1; PyInt 2]
  = ret {| dtype_of := DFloat64;
           items := [PyFloat fzero; PyFloat fone; PyFloat fone] |} /\
  List.length [PyFloat fzero; PyFloat fone; PyFloat fone]
  = List.length [PyInt 0; PyInt 1; PyInt 2] /\
  exists r, call (Const (PyInt 1) PINF (PyFloat fone)) (PyInt 1) = ret r /\
            nth_error [PyFloat fzero; PyFloat fone; PyFloat fone] 1
            = Some (to_dtype DFloat64 r) /\
            (is_float r = true -> to_dtype DFloat64 r = r) /\
            (is_nan r = false -> no_int_to_float DFloat64 r = true ->
             py_eq (to_dtype DFloat64 r) r = true).
Proof.
  split; [reflexivity |].
  destruct (proj1 (proj2
    (eval_on_pointwise (Const (PyInt 1) PINF (PyFloat fone))
       [PyInt 0; PyInt 1; PyInt 2]))
    {| dtype_of := DFloat64; items := [PyFloat fzero; PyFloat fone; PyFloat fone] |}
    eq_refl) as [Hlen Hnth].
  split; [exact Hlen |].
  exact (Hnth 1%nat (PyInt 1) eq_refl).
Defined.

(** C8, as stated, fails: with [s = Const(t_start=1, value=2**53 + 1)],
    [s.eval_on([0, 1])] is the [float64] array [[0.0, 2.0**53]], whose
    element [1] differs from [s(1) = 2**53 + 1]; it depends on the
    other timestamp, since [s.eval_on([1])] keeps the integer. *)
Lemma eval_on_rounds_int :
  call (Const (PyInt 1) PINF (PyInt 9007199254740993)) (PyInt 0) = ret (PyFloat fzero) /\
  call (Const (PyInt 1) PINF (PyInt 9007199254740993)) (PyInt 1)
  = ret (PyInt 9007199254740993) /\
  BaseSignal.eval_on (Const (PyInt 1) PINF (PyInt 9007199254740993)) [PyInt 0; PyInt 1]
  = ret {| dtype_of := DFloat64;
           items := [PyFloat fzero; PyFloat (S754_finite false 4503599627370496 1)] |} /\
  py_eq (PyFloat (S754_finite false 4503599627370496 1)) (PyInt 9007199254740993)
  = false /\
  BaseSignal.eval_on (Const (PyInt 1) PINF (PyInt 9007199254740993)) [PyInt 1]
  = ret {| dtype_of := DInt64; items := [PyInt 9007199254740993] |}.
Proof. repeat split; vm_compute; reflexivity. Qed.

End Batch.

(* ===================================================================== *)
(** * Operators with a literal operand *)
(* ===================================================================== *)

Module Literals.

Lemma call_sum (a b : signal) (t : pynum) :
  call (SumOfSignals a b) t = (l <- call a t ;; r <- call b t ;; py_add l r).
Proof. reflexivity. Qed.

Lemma call_difference (a b : signal) (t : pynum) :
  call (DifferenceOfSignals a b) t = (l <- call a t ;; r <- call b t ;; py_sub l r).
Proof. reflexivity. Qed.

Lemma call_product (a b : signal) (t : pynum) :
  call (ProductOfSignals a b) t = (l <- call a t ;; r <- call b t ;; py_mul l r).
Proof. reflexivity. Qed.

Lemma call_division (a b : signal) (t : pynum) :
  call (DivisionOfSignals a b) t = (l <- call a t ;; r <- call b t ;; py_truediv l r).
Proof. reflexivity. Qed.

(** A literal on the right: the leaf is evaluated second. *)
Lemma literal_right (a : signal) (x t : pynum) (op : pynum -> pynum -> result pynum) :
  regular_time t = true ->
  (l <- call a t ;; r <- call (ConstSignal.of_value x) t ;; op l r)
  = (v <- call a t ;; op v x).
Proof.
  intros Ht. rewrite (ConstFacts.of_value_regular x t Ht).
  destruct (call a t); reflexivity.
Qed.

(** A literal on the left: the leaf is evaluated first. *)
Lemma literal_left (a : signal) (x t : pynum) (op : pynum -> pynum -> result pynum) :
  regular_time t = true ->
  (l <- call (ConstSignal.of_value x) t ;; r <- call a t ;; op l r)
  = (v <- call a t ;; op x v).
Proof.
  intros Ht. rewrite (ConstFacts.of_value_regular x t Ht). reflexivity.
Qed.

(** C2, as the code has it: [a + x] (and the reflected [x + a]) builds
    [SumOfSignals(a, Const(value=x))] with [a] itself as left operand
    and a leaf whose window is [t_start = -inf], [t_end = +inf]; at
    every regular time (below [+infinity], not a not-a-number) the leaf
    returns [x] and [(a + x)(t)] is [a(t) + x], whatever the window of
    [a]. *)
Theorem add_literal (a : signal) (x t : pynum) :
  regular_time t = true ->
  BaseSignal.__add__ a (ONum x) = ret (SumOfSignals a (Const NINF PINF x)) /\
  BaseSignal.__radd__ a (ONum x) = ret (SumOfSignals a (Const NINF PINF x)) /\
  call (Const NINF PINF x) t = ret x /\
  call_built (BaseSignal.__add__ a (ONum x)) t = (v <- call a t ;; py_add v x).
Proof.
  intros Ht. split; [reflexivity |]. split; [reflexivity |]. split.
  - apply (ConstFacts.of_value_regular x t Ht).
  - unfold call_built, BaseSignal.__add__. rewrite bind_ret_l, call_sum.
    apply literal_right. exact Ht.
Qed.

(** [Const(value=4, t_start=2, t_end=5) + 1] at [t = 7], outside the
    window of the signal operand. *)
Lemma add_literal_witness :
  regular_time (PyInt 7) = true /\
  call_built (BaseSignal.__add__ (Const (PyInt 2) (PyInt 5) (PyInt 4)) (ONum (PyInt 1)))
    (PyInt 7)
  = (v <- call (Const (PyInt 2) (PyInt 5) (PyInt 4)) (PyInt 7) ;; py_add v (PyInt 1)).
Proof.
  split; [reflexivity |].
  exact (proj2 (proj2 (proj2
    (@add_literal (Const (PyInt 2) (PyInt 5) (PyInt 4)) (PyInt 1) (PyInt 7) eq_refl)))).
Defined.

(** C2, as stated, fails at [t = +infinity]: the leaf built from the
    literal [5] is gated there, so [(a + 5)(inf)] is [0.0] while
    [a(inf) + 5] is [5.0]. *)
Lemma add_literal_at_infinity :
  call_built (BaseSignal.__add__ (ConstSignal.of_value (PyInt 1)) (ONum (PyInt 5))) PINF
  = ret (PyFloat fzero) /\
  (v <- call (ConstSignal.of_value (PyInt 1)) PINF ;; py_add v (PyInt 5))
  = ret (PyFloat (S754_finite false 5629499534213120 (-50))) /\
  py_eq (PyFloat fzero) (PyFloat (S754_finite false 5629499534213120 (-50))) = false.
Proof. repeat split; vm_compute; reflexivity. Qed.

(** C5, as the code has it: the reflected operators put the literal on
    the left, [DifferenceOfSignals(Const(value=b), a)] and
    [DivisionOfSignals(Const(value=b), a)]; at every regular time
    [(b - a)(t)] is [b - a(t)] and [(b / a)(t)] is [b / a(t)], with the
    same exceptions. *)
Theorem reflected_literal (a : signal) (b t : pynum) :
  regular_time t = true ->
  BaseSignal.__rsub__ a (ONum b) = ret (DifferenceOfSignals (Const NINF PINF b) a) /\
  BaseSignal.__rtruediv__ a (ONum b) = ret (DivisionOfSignals (Const NINF PINF b) a) /\
  call_built (BaseSignal.__rsub__ a (ONum b)) t = (v <- call a t ;; py_sub b v) /\
  call_built (BaseSignal.__rtruediv__ a (ONum b)) t = (v <- call a t ;; py_truediv b v).
Proof.
  intros Ht. split; [reflexivity |]. split; [reflexivity |]. split.
  - unfold call_built, BaseSignal.__rsub__. rewrite bind_ret_l, call_difference.
    apply literal_left. exact Ht.
  - unfold call_built, BaseSignal.__rtruediv__. rewrite bind_ret_l, call_division.
    apply literal_left. exact Ht.
Qed.

(** [5 - Const(value=2)] and [5 / Const(value=2)] at [t = 0] *)
Lemma reflected_literal_witness :
  regular_time (PyInt 0) = true /\
  call_built (BaseSignal.__rsub__ (ConstSignal.of_value (PyInt 2)) (ONum (PyInt 5)))
    (PyInt 0)
  = (v <- call (ConstSignal.of_value (PyInt 2)) (PyInt 0) ;; py_sub (PyInt 5) v) /\
  call_built (BaseSignal.__rtruediv__ (ConstSignal.of_value (PyInt 2)) (ONum (PyInt 5)))
    (PyInt 0)
  = (v <- call (ConstSignal.of_value (PyInt 2)) (PyInt 0) ;; py_truediv (PyInt 5) v).
Proof.
  split; [reflexivity |].
  exact (proj2 (proj2
    (@reflected_literal (ConstSignal.of_value (PyInt 2)) (PyInt 5) (PyInt 0) eq_refl))).
Defined.

(** C5, as stated, fails at [t = +infinity]: [(5 - a)(inf)] is
    [0.0 - a(inf)], here [0.0], while [5 - a(inf)] is [5.0]. *)
Lemma reflected_literal_at_infinity :
  call_built (BaseSignal.__rsub__ (ConstSignal.of_value (PyInt 1)) (ONum (PyInt 5))) PINF
  = ret (PyFloat fzero) /\
  (v <- call (ConstSignal.of_value (PyInt 1)) PINF ;; py_sub (PyInt 5) v)
  = ret (PyFloat (S754_finite false 5629499534213120 (-50))) /\
  py_eq (PyFloat fzero) (PyFloat (S754_finite false 5629499534213120 (-50))) = false.
Proof. repeat split; vm_compute; reflexivity. Qed.

(** C10: a [bool] operand passes the numeric check of every operator:
    the construction returns a composite whose literal side is the
    constant leaf carrying the boolean, which equals [1] or [0] and
    behaves as that integer in the arithmetic of the evaluation. *)
Theorem bool_operand (s : signal) (b : bool) :
  BaseSignal.__add__ s (ONum (PyBool b)) = ret (SumOfSignals s (Const NINF PINF (PyBool b))) /\
  BaseSignal.__sub__ s (ONum (PyBool b))
  = ret (DifferenceOfSignals s (Const NINF PINF (PyBool b))) /\
  BaseSignal.__mul__ s (ONum (PyBool b))
  = ret (ProductOfSignals s (Const NINF PINF (PyBool b))) /\
  BaseSignal.__truediv__ s (ONum (PyBool b))
  = ret (DivisionOfSignals s (Const NINF PINF (PyBool b))) /\
  py_eq (PyBool b) (PyInt (if b then 1 else 0)) = true /\
  (forall v,
     py_add v (PyBool b) = py_add v (PyInt (if b then 1 else 0)) /\
     py_sub v (PyBool b) = py_sub v (PyInt (if b then 1 else 0)) /\
     py_mul v (PyBool b) = py_mul v (PyInt (if b then 1 else 0)) /\
     py_truediv v (PyBool b) = py_truediv v (PyInt (if b then 1 else 0))).
Proof.
  repeat (split; [reflexivity |]).
  split.
  - destruct b; reflexivity.
  - intros v. destruct b; repeat split; destruct v; reflexivity.
Qed.

End Literals.

(* ===================================================================== *)
(** * The constructor of the constant leaf *)
(* ===================================================================== *)

Module Construction.

Local Open Scope string_scope.

(** C3, as the code has it: the generated constructor of [Const] takes
    its fields in the order [t_start], [t_end], [value], with defaults
    [-inf], [+inf] and [0.0]; with the value passed by keyword,
    [Const(value=x) + Const(value=y)] evaluates to [x + y] at every
    regular time, and [Const(value=2) + Const(value=3)] gives [5] at
    [t = 0] and at [t = 100]. *)
Theorem const_sum_by_keyword :
  ConstSignal.fields
  = [("t_start", NINF); ("t_end", PINF); ("value", PyFloat fzero)] /\
  (forall x y t, regular_time t = true ->
     const_sum [] [] [("value", x)] [("value", y)] t = py_add x y) /\
  const_sum [] [] [("value", PyInt 2)] [("value", PyInt 3)] (PyInt 0) = ret (PyInt 5) /\
  const_sum [] [] [("value", PyInt 2)] [("value", PyInt 3)] (PyInt 100) = ret (PyInt 5).
Proof.
  split; [reflexivity |].
  assert (H : forall x y t, regular_time t = true ->
            const_sum [] [] [("value", x)] [("value", y)] t = py_add x y).
  { intros x y t Ht. unfold const_sum.
    rewrite !ConstFacts.new_value, !bind_ret_l.
    unfold BaseSignal.__add__. rewrite bind_ret_l, Literals.call_sum.
    rewrite (@Literals.literal_right _ y t py_add Ht).
    rewrite (ConstFacts.of_value_regular x t Ht). reflexivity. }
  split; [exact H |].
  split; apply H; reflexivity.
Qed.

(** [Const(value=2) + Const(value=3)] at [t = 1.0] *)
Lemma const_sum_by_keyword_witness :
  regular_time (PyFloat fone) = true /\
  const_sum [] [] [("value", PyInt 2)] [("value", PyInt 3)] (PyFloat fone)
  = py_add (PyInt 2) (PyInt 3).
Proof.
  split; [reflexivity |].
  exact (proj1 (proj2 const_sum_by_keyword) (PyInt 2) (PyInt 3) (PyFloat fone) eq_refl).
Defined.

(** C3, as stated, fails: [Const(2)] binds [2] to [t_start] and leaves
    [value] at [0.0], so [Const(2) + Const(3)] is [0.0], not [5], at
    [t = 0] and at [t = 100]. *)
Lemma const_sum_positional :
  ConstSignal.new [PyInt 2] [] = ret (Const (PyInt 2) PINF (PyFloat fzero)) /\
  ConstSignal.new [PyInt 3] [] = ret (Const (PyInt 3) PINF (PyFloat fzero)) /\
  const_sum [PyInt 2] [PyInt 3] [] [] (PyInt 0) = ret (PyFloat fzero) /\
  const_sum [PyInt 2] [PyInt 3] [] [] (PyInt 100) = ret (PyFloat fzero) /\
  py_eq (PyFloat fzero) (PyInt 5) = false.
Proof. repeat split; vm_compute; reflexivity. Qed.

End Construction.

(* ===================================================================== *)
(** * Identities *)
(* ===================================================================== *)

Module Identities.

Local Open Scope string_scope.

(** [v + 0 == v] *)
Lemma add_zero (v : pynum) :
  is_nan v = false ->
  exists w, py_add v (PyInt 0) = ret w /\ py_eq w v = true.
Proof.
  intros Hn. destruct v as [b | z | f].
  - exists (PyInt (Z.b2z b + 0)). split; [reflexivity |]. destruct b; reflexivity.
  - exists (PyInt (z + 0)). split; [reflexivity |].
    rewrite Z.add_0_r. apply Order.py_eq_refl. reflexivity.
  - exists (PyFloat (SFadd prec emax f fzero)). split; [reflexivity |].
    destruct (FloatFacts.SFadd_zero_r f) as [E | [E1 E2]].
    + rewrite E. apply Order.py_eq_refl. exact Hn.
    + rewrite E2, E1. reflexivity.
Qed.

(** [v * 1 == v] *)
Lemma mul_one (v : pynum) :
  wf v = true -> is_nan v = false ->
  exists w, py_mul v (PyInt 1) = ret w /\ py_eq w v = true.
Proof.
  intros Hwf Hn. destruct v as [b | z | f].
  - exists (PyInt (Z.b2z b * 1)). split; [reflexivity |]. destruct b; reflexivity.
  - exists (PyInt (z * 1)). split; [reflexivity |].
    rewrite Z.mul_1_r. apply Order.py_eq_refl. reflexivity.
  - exists (PyFloat (SFmul prec emax f fone)). split; [reflexivity |].
    destruct f as [s | s | | s m e].
    + destruct s; reflexivity.
    + destruct s; reflexivity.
    + discriminate.
    + simpl in Hwf. rewrite (FloatFacts.SFmul_one_r s m e Hwf).
      apply Order.py_eq_refl. reflexivity.
Qed.

Lemma plus_const_value (a : signal) (c t : pynum) :
  regular_time t = true ->
  plus_const a [] [("value", c)] t = (v <- call a t ;; py_add v c).
Proof.
  intros Ht. unfold plus_const.
  rewrite ConstFacts.new_value, bind_ret_l.
  unfold BaseSignal.__add__. rewrite bind_ret_l, Literals.call_sum.
  apply Literals.literal_right. exact Ht.
Qed.

Lemma times_const_value (a : signal) (c t : pynum) :
  regular_time t = true ->
  times_const a [] [("value", c)] t = (v <- call a t ;; py_mul v c).
Proof.
  intros Ht. unfold times_const.
  rewrite ConstFacts.new_value, bind_ret_l.
  unfold BaseSignal.__mul__. rewrite bind_ret_l, Literals.call_product.
  apply Literals.literal_right. exact Ht.
Qed.

(** C4, as the code has it: with the number passed by keyword,
    [Const(value=0)] and [Const(value=1)], at every regular time [t] at
    which [a(t)] is a number other than a not-a-number,
    [(a + Const(value=0))(t) == a(t)] and
    [(a * Const(value=1))(t) == a(t)]. *)
Theorem identities_by_keyword (a : signal) (t v : pynum) :
  regular_time t = true ->
  call a t = ret v -> wf v = true -> is_nan v = false ->
  (exists w, plus_const a [] [("value", PyInt 0)] t = ret w /\ py_eq w v = true) /\
  (exists w, times_const a [] [("value", PyInt 1)] t = ret w /\ py_eq w v = true).
Proof.
  intros Ht Hv Hwf Hn. split.
  - rewrite (plus_const_value a (PyInt 0) t Ht), Hv, bind_ret_l.
    apply add_zero. exact Hn.
  - rewrite (times_const_value a (PyInt 1) t Ht), Hv, bind_ret_l.
    apply mul_one; assumption.
Qed.

(** [a = Const(value=2.5)] at [t = 3] *)
Lemma identities_by_keyword_witness :
  regular_time (PyInt 3) = true /\
  call (ConstSignal.of_value (PyFloat (S754_finite false 5629499534213120 (-51)))) (PyInt 3)
  = ret (PyFloat (S754_finite false 5629499534213120 (-51))) /\
  (exists w,
     plus_const (ConstSignal.of_value (PyFloat (S754_finite false 5629499534213120 (-51))))
       [] [("value", PyInt 0)] (PyInt 3) = ret w /\
     py_eq w (PyFloat (S754_finite false 5629499534213120 (-51))) = true) /\
  (exists w,
     times_const (ConstSignal.of_value (PyFloat (S754_finite false 5629499534213120 (-51))))
       [] [("value", PyInt 1)] (PyInt 3) = ret w /\
     py_eq w (PyFloat (S754_finite false 5629499534213120 (-51))) = true).
Proof.
  split; [reflexivity |]. split; [reflexivity |].
  exact (@identities_by_keyword
           (ConstSignal.of_value (PyFloat (S754_finite false 5629499534213120 (-51))))
           (PyInt 3) (PyFloat (S754_finite false 5629499534213120 (-51)))
           eq_refl eq_refl eq_refl eq_refl).
Defined.

(** C4, as stated, fails: [Const(1)] binds [1] to [t_start] and leaves
    [value] at [0.0], so [(a * Const(1))(t)] is [a(t) * 0.0]; with
    [a = Const(value=5)] it is [0.0] while [a(t)] is [5], inside the
    window of [Const(1)] ([t = 2]) as well as outside ([t = 0]). *)
Lemma times_const_positional :
  ConstSignal.new [PyInt 1] [] = ret (Const (PyInt 1) PINF (PyFloat fzero)) /\
  call (ConstSignal.of_value (PyInt 5)) (PyInt 2) = ret (PyInt 5) /\
  times_const (ConstSignal.of_value (PyInt 5)) [PyInt 1] [] (PyInt 2) = ret (PyFloat fzero) /\
  call (ConstSignal.of_value (PyInt 5)) (PyInt 0) = ret (PyInt 5) /\
  times_const (ConstSignal.of_value (PyInt 5)) [PyInt 1] [] (PyInt 0) = ret (PyFloat fzero) /\
  py_eq (PyFloat fzero) (PyInt 5) = false.
Proof. repeat split; vm_compute; reflexivity. Qed.

End Identities.

(* ===================================================================== *)
(** * Division by zero *)
(* ===================================================================== *)

Module Division.

Lemma float_value_nonzero (s : bool) (m : positive) (e : Z) :
  ~ ((float_value s m e <= 0)%Q /\ (0 <= float_value s m e)%Q).
Proof.
  unfold float_value. intros [H1 H2].
  destruct e as [| p | p].
  - unfold Qle in *. simpl in *. destruct s; lia.
  - assert (Hp : (0 < 2 ^ Z.pos p)%Z) by (apply Z.pow_pos_nonneg; lia).
    unfold Qle in *. simpl Qnum in *. simpl Qden in *.
    rewrite Z.mul_1_r in *. destruct s; nia.
  - unfold Qle in *. simpl in *. destruct s; lia.
Qed.

(** The numbers equal to zero: [False], [0], [0.0] and [-0.0]. *)
Lemma py_eq_zero_inv (y : pynum) :
  py_eq y (PyInt 0) = true ->
  as_int y = Some 0%Z \/ exists s, y = PyFloat (S754_zero s).
Proof.
  intros H. destruct y as [b | z | f].
  - destruct b; [discriminate | left; reflexivity].
  - left. apply Order.py_eq_true in H.
    destruct H as (x & x0 & Hx & Hx0 & H1 & H2).
    simpl in Hx, Hx0. inversion Hx; inversion Hx0; subst. simpl in H1, H2.
    rewrite <- Zle_Qle in H1, H2. simpl. f_equal. lia.
  - destruct f as [s | s | | s m e].
    + right. exists s. reflexivity.
    + destruct s; discriminate.
    + discriminate.
    + exfalso. apply Order.py_eq_true in H.
      destruct H as (x & x0 & Hx & Hx0 & H1 & H2).
      simpl in Hx, Hx0. inversion Hx; inversion Hx0; subst. simpl in H1, H2.
      apply (float_value_nonzero s m e). split; assumption.
Qed.

(** A conversion to float returns or raises [OverflowError]. *)
Lemma as_float_cases (x : pynum) :
  (exists f, as_float x = ret f) \/ as_float x = raise OverflowError.
Proof.
  assert (H : forall z, (exists f, float_of_int z = ret f) \/
                        float_of_int z = raise OverflowError).
  { intros z. unfold float_of_int.
    destruct (binary_normalize prec emax z 0 false);
      try (left; eexists; reflexivity). right. reflexivity. }
  destruct x as [b | z | f]; simpl.
  - apply H.
  - apply H.
  - left. exists f. reflexivity.
Qed.

Lemma truediv_by_zero (x y : pynum) :
  py_eq y (PyInt 0) = true ->
  py_truediv x y = raise ZeroDivisionError \/
  (as_float x = raise OverflowError /\ py_truediv x y = raise OverflowError).
Proof.
  intros Hy. apply py_eq_zero_inv in Hy. unfold py_truediv.
  destruct Hy as [Hy | [s Hy]].
  - rewrite Hy. destruct (as_int x) as [xi |] eqn:Hx.
    + left. reflexivity.
    + destruct x as [b | z | f]; try discriminate. left.
      destruct y as [b | z | g]; try discriminate; simpl in Hy; inversion Hy.
      * destruct b; [discriminate | reflexivity].
      * reflexivity.
  - subst y. simpl as_int.
    replace (match as_int x with
             | Some x0 => _
             | None => _
             end)
      with (x0 <- as_float x ;; y <- as_float (PyFloat (S754_zero s)) ;;
            (if fis_zero y then raise ZeroDivisionError
             else ret (PyFloat (SFdiv prec emax x0 y))))
      by (destruct (as_int x); reflexivity).
    destruct (as_float_cases x) as [[f Hf] | Hf]; rewrite Hf.
    + left. reflexivity.
    + right. split; reflexivity.
Qed.

(** C6, as the code has it: when both operands of a quotient node
    evaluate to numbers and the denominator is zero ([0], [0.0], [-0.0]
    or [False]), the evaluation raises: [ZeroDivisionError], or
    [OverflowError] when the numerator is an [int] too large for a
    float; no infinity and no not-a-number is returned. *)
Theorem zero_denominator (a b : signal) (t x y : pynum) :
  call a t = ret x -> call b t = ret y -> py_eq y (PyInt 0) = true ->
  returns (call (DivisionOfSignals a b) t) = false /\
  (call (DivisionOfSignals a b) t = raise ZeroDivisionError \/
   (as_float x = raise OverflowError /\
    call (DivisionOfSignals a b) t = raise OverflowError)).
Proof.
  intros Ha Hb Hy. rewrite Literals.call_division, Ha, Hb, !bind_ret_l.
  destruct (@truediv_by_zero x y Hy) as [H | [Hx H]].
  - rewrite H. split; [reflexivity | left; reflexivity].
  - rewrite H. split; [reflexivity | right; split; [exact Hx | reflexivity]].
Qed.

(** [Const(value=1.0) / Const(value=0.0)] at [t = 0.0] *)
Lemma zero_denominator_witness :
  call (ConstSignal.of_value (PyFloat fone)) (PyFloat fzero) = ret (PyFloat fone) /\
  call (ConstSignal.of_value (PyFloat fzero)) (PyFloat fzero) = ret (PyFloat fzero) /\
  py_eq (PyFloat fzero) (PyInt 0) = true /\
  returns (call (DivisionOfSignals (ConstSignal.of_value (PyFloat fone))
                                   (ConstSignal.of_value (PyFloat fzero)))
                (PyFloat fzero)) = false.
Proof.
  repeat (split; [reflexivity |]).
  exact (proj1 (@zero_denominator
                  (ConstSignal.of_value (PyFloat fone))
                  (ConstSignal.of_value (PyFloat fzero))
                  (PyFloat fzero) (PyFloat fone) (PyFloat fzero)
                  eq_refl eq_refl eq_refl)).
Defined.

(** C6, as stated, fails: [(Const(value=1.0) / 0.0)(0.0)] has the
    denominator [0.0] and raises [ZeroDivisionError]; the quotient that
    IEEE-754 gives, [+infinity], is not returned. *)
Lemma quotient_by_zero_raises :
  call (ConstSignal.of_value (PyFloat fzero)) (PyFloat fzero) = ret (PyFloat fzero) /\
  call_built (BaseSignal.__truediv__ (ConstSignal.of_value (PyFloat fone))
                (ONum (PyFloat fzero))) (PyFloat fzero)
  = raise ZeroDivisionError /\
  SFdiv prec emax fone fzero = S754_infinity false.
Proof. repeat split; vm_compute; reflexivity. Qed.

End Division.

(* ===================================================================== *)
(** * Rejection of other operand types *)
(* ===================================================================== *)

Module Rejection.

Local Open Scope string_scope.

Lemma append_nil_r (s : string) : s ++ "" = s.
Proof. induction s as [| c s IH]; simpl; [| rewrite IH]; reflexivity. Qed.

Lemma append_assoc (a b c : string) : (a ++ b) ++ c = a ++ b ++ c.
Proof. induction a as [| x a IH]; simpl; [| rewrite IH]; reflexivity. Qed.

(** The message built by [unsupported] names the operation. *)
Lemma unsupported_names (what op : string) (left right : pyobj) :
  exists msg, BaseSignal.unsupported what op left right = TypeError msg /\
              names_operation msg op left right.
Proof.
  eexists. split; [reflexivity |]. split.
  - exists (what ++ " with Signal only support for [SignalOperations | float | int]. "),
           (" for types: " ++ BaseSignal.type_of left ++ " " ++ op ++ " "
            ++ BaseSignal.type_of right).
    rewrite !append_assoc. reflexivity.
  - exists (what ++ " with Signal only support for [SignalOperations | float | int]. "
            ++ "Operand " ++ op ++ " was called for types: "), "".
    rewrite append_nil_r, !append_assoc. reflexivity.
Qed.

Lemma raise_unsupported (what op : string) (left right : pyobj) :
  rejects (raise (BaseSignal.unsupported what op left right)) op left right.
Proof.
  destruct (unsupported_names what op left right) as (msg & E & H).
  exists msg. rewrite E. split; [reflexivity | exact H].
Qed.

(** C7: every operator, applied to an operand that is neither a signal
    nor a number, raises a [TypeError] when it is called, so no node is
    built and nothing is left to fail at evaluation; the message names
    the operator and the types of the two operands, in the order of the
    operation for [-] and [/] and their reflected forms. *)
Theorem type_rejection (self : signal) (type_name : string) :
  rejects (BaseSignal.__add__ self (OOther type_name)) "+"
    (OSignal self) (OOther type_name) /\
  rejects (BaseSignal.__radd__ self (OOther type_name)) "+"
    (OSignal self) (OOther type_name) /\
  rejects (BaseSignal.__mul__ self (OOther type_name)) "*"
    (OSignal self) (OOther type_name) /\
  rejects (BaseSignal.__rmul__ self (OOther type_name)) "*"
    (OSignal self) (OOther type_name) /\
  rejects (BaseSignal.__sub__ self (OOther type_name)) "-"
    (OSignal self) (OOther type_name) /\
  rejects (BaseSignal.__rsub__ self (OOther type_name)) "-"
    (OOther type_name) (OSignal self) /\
  rejects (BaseSignal.__truediv__ self (OOther type_name)) "/"
    (OSignal self) (OOther type_name) /\
  rejects (BaseSignal.__rtruediv__ self (OOther type_name)) "/"
    (OOther type_name) (OSignal self).
Proof.
  unfold BaseSignal.__radd__, BaseSignal.__rmul__.
  repeat split; apply raise_unsupported.
Qed.

End Rejection.

(* ===================================================================== *)
(** * Commutativity of sums and products *)
(* ===================================================================== *)

Module Commutativity.

Lemma SFadd_comm (x y : spec_float) : SFadd prec emax x y = SFadd prec emax y x.
Proof.
  destruct x as [[|] | [|] | | sx mx ex], y as [[|] | [|] | | sy my ey];
    try reflexivity.
  unfold SFadd. rewrite (Z.min_comm ex ey), Z.add_comm. reflexivity.
Qed.

Lemma SFmul_comm (x y : spec_float) : SFmul prec emax x y = SFmul prec emax y x.
Proof.
  destruct x as [sx | sx | | sx mx ex], y as [sy | sy | | sy my ey];
    try reflexivity; unfold SFmul; rewrite (xorb_comm sx sy); try reflexivity.
  rewrite (Pos.mul_comm mx my), (Z.add_comm ex ey). reflexivity.
Qed.

(** A commutative integer operation and a commutative float operation
    give a commutative Python operation: the conversions of the two
    operands can only raise the same exception. *)
Lemma arith_comm (iop : Z -> Z -> Z) (fop : spec_float -> spec_float -> spec_float) :
  (forall x y, iop x y = iop y x) -> (forall x y, fop x y = fop y x) ->
  forall a b, arith iop fop a b = arith iop fop b a.
Proof.
  intros Hi Hf a b. unfold arith.
  assert (Hover : forall z, (exists f, float_of_int z = ret f) \/
                            float_of_int z = raise OverflowError).
  { intros z. unfold float_of_int.
    destruct (binary_normalize prec emax z 0 false);
      try (left; eexists; reflexivity). right. reflexivity. }
  assert (Hfl : forall n, (exists f, as_float n = ret f) \/
                          as_float n = raise OverflowError).
  { intros [c | z | f]; simpl; [apply Hover | apply Hover |].
    left. exists f. reflexivity. }
  destruct (as_int a) as [x |] eqn:Ea, (as_int b) as [y |] eqn:Eb.
  - rewrite Hi. reflexivity.
  - destruct (Hfl a) as [[f Ha] | Ha], (Hfl b) as [[g Hb] | Hb];
      rewrite Ha, Hb; simpl; try rewrite Hf; reflexivity.
  - destruct (Hfl a) as [[f Ha] | Ha], (Hfl b) as [[g Hb] | Hb];
      rewrite Ha, Hb; simpl; try rewrite Hf; reflexivity.
  - destruct (Hfl a) as [[f Ha] | Ha], (Hfl b) as [[g Hb] | Hb];
      rewrite Ha, Hb; simpl; try rewrite Hf; reflexivity.
Qed.

Lemma py_add_comm (a b : pynum) : py_add a b = py_add b a.
Proof. apply arith_comm; [apply Z.add_comm | apply SFadd_comm]. Qed.

Lemma py_mul_comm (a b : pynum) : py_mul a b = py_mul b a.
Proof. apply arith_comm; [apply Z.mul_comm | apply SFmul_comm]. Qed.

(** X1: where both operands return a value, a sum node and a product
    node evaluate to the same result in either operand order: the same
    integer, the same float (a not-a-number in one order is a
    not-a-number in the other), or the same exception if the arithmetic
    raises. *)
Theorem sum_product_commute (a b : signal) (t x y : pynum) :
  call a t = ret x -> call b t = ret y ->
  call (SumOfSignals a b) t = call (SumOfSignals b a) t /\
  call (ProductOfSignals a b) t = call (ProductOfSignals b a) t.
Proof.
  intros Ha Hb. simpl. rewrite Ha, Hb. simpl. split.
  - apply py_add_comm.
  - apply py_mul_comm.
Qed.

(** [Const(value=0.1) + Const(value=3)] at [t = 0] *)
Lemma sum_product_commute_witness :
  call (SumOfSignals
          (ConstSignal.of_value (PyFloat (S754_finite false 7205759403792794 (-56))))
          (ConstSignal.of_value (PyInt 3))) (PyInt 0)
  = call (SumOfSignals
          (ConstSignal.of_value (PyInt 3))
          (ConstSignal.of_value (PyFloat (S754_finite false 7205759403792794 (-56)))))
      (PyInt 0).
Proof.
  exact (proj1 (@sum_product_commute
    (ConstSignal.of_value (PyFloat (S754_finite false 7205759403792794 (-56))))
    (ConstSignal.of_value (PyInt 3)) (PyInt 0)
    (PyFloat (S754_finite false 7205759403792794 (-56))) (PyInt 3) eq_refl eq_refl)).
Defined.

(** X2: the reflected [x + a] and [x * a] store the literal as the right
    operand, and the direct [a - x], [a * x], [a / x] do so too; at
    every regular time each evaluates to the operation written, with the
    literal on the side it was written. *)
Theorem literal_operators (a : signal) (x t : pynum) :
  regular_time t = true ->
  call_built (BaseSignal.__radd__ a (ONum x)) t = (v <- call a t ;; py_add x v) /\
  call_built (BaseSignal.__rmul__ a (ONum x)) t = (v <- call a t ;; py_mul x v) /\
  call_built (BaseSignal.__mul__ a (ONum x)) t = (v <- call a t ;; py_mul v x) /\
  call_built (BaseSignal.__sub__ a (ONum x)) t = (v <- call a t ;; py_sub v x) /\
  call_built (BaseSignal.__truediv__ a (ONum x)) t = (v <- call a t ;; py_truediv v x).
Proof.
  intros Ht. unfold call_built, BaseSignal.__radd__, BaseSignal.__rmul__.
  simpl BaseSignal.__add__. simpl BaseSignal.__mul__.
  simpl BaseSignal.__sub__. simpl BaseSignal.__truediv__.
  rewrite !bind_ret_l, Literals.call_sum, Literals.call_product,
    Literals.call_difference, Literals.call_division.
  rewrite (@Literals.literal_right a x t py_add Ht),
    (@Literals.literal_right a x t py_mul Ht),
    (@Literals.literal_right a x t py_sub Ht),
    (@Literals.literal_right a x t py_truediv Ht).
  repeat split; try reflexivity.
  - destruct (call a t); simpl; [reflexivity | apply py_add_comm].
  - destruct (call a t); simpl; [reflexivity | apply py_mul_comm].
Qed.

(** [3 * Const(value=2)] at [t = 0] *)
Lemma literal_operators_witness :
  regular_time (PyInt 0) = true /\
  call_built (BaseSignal.__rmul__ (ConstSignal.of_value (PyInt 2)) (ONum (PyInt 3)))
    (PyInt 0)
  = (v <- call (ConstSignal.of_value (PyInt 2)) (PyInt 0) ;; py_mul (PyInt 3) v).
Proof.
  split; [reflexivity |].
  exact (proj1 (proj2
    (@literal_operators (ConstSignal.of_value (PyInt 2)) (PyInt 3) (PyInt 0) eq_refl))).
Defined.

End Commutativity.

(* ===================================================================== *)
(** * What an evaluation can and cannot return *)
(* ===================================================================== *)

Module Evaluation.

(** A composite returns only if both of its operands return. *)
Lemma operands_return (op : pynum -> pynum -> result pynum) (a b : signal)
    (t : pynum) :
  returns (l <- call a t ;; r <- call b t ;; op l r) = true ->
  returns (call a t) = true /\ returns (call b t) = true.
Proof.
  destruct (call a t) as [e | x]; simpl; [discriminate |].
  destruct (call b t) as [e | y]; simpl; [discriminate |].
  auto.
Qed.

(** X3: an expression that contains a direct instance of [BaseSignal],
    at any depth and on either side, raises at every time: it can be
    built but never evaluated. *)
Theorem base_never_returns (s : signal) (t : pynum) :
  has_base s = true -> returns (call s t) = false.
Proof.
  induction s as [| ts te v | c ts te f | l IHl r IHr | l IHl r IHr
                 | l IHl r IHr | l IHl r IHr]; simpl; intros H;
    try discriminate; try reflexivity;
    apply orb_true_iff in H;
    match goal with
    | |- returns ?c = false =>
        destruct (returns c) eqn:E; [exfalso | reflexivity]
    end;
    apply operands_return in E; destruct E as [El Er];
    destruct H as [H | H];
    [ rewrite (IHl H) in El | rewrite (IHr H) in Er
    | rewrite (IHl H) in El | rewrite (IHr H) in Er
    | rewrite (IHl H) in El | rewrite (IHr H) in Er
    | rewrite (IHl H) in El | rewrite (IHr H) in Er ]; discriminate.
Qed.

(** [(Const(value=1) * (BaseSignal() + 2))(0)] *)
Lemma base_never_returns_witness :
  has_base (ProductOfSignals (ConstSignal.of_value (PyInt 1))
              (SumOfSignals Base (ConstSignal.of_value (PyInt 2)))) = true /\
  returns (call (ProductOfSignals (ConstSignal.of_value (PyInt 1))
                   (SumOfSignals Base (ConstSignal.of_value (PyInt 2)))) (PyInt 0))
  = false.
Proof.
  split; [reflexivity |].
  exact (@base_never_returns
           (ProductOfSignals (ConstSignal.of_value (PyInt 1))
              (SumOfSignals Base (ConstSignal.of_value (PyInt 2))))
           (PyInt 0) eq_refl).
Defined.

Lemma quiet_leaf (ts te : pynum) (local : pynum -> result pynum) (t : pynum) :
  negb (in_window ts te t) = true ->
  Signal.__call__ ts te local t = ret (PyFloat fzero).
Proof.
  intros H. apply negb_true_iff in H. unfold Signal.__call__.
  unfold in_window in H. rewrite H. reflexivity.
Qed.

(** X4: an expression of sums, differences and products whose windowed
    leaves are all outside their window at [t] evaluates to exactly
    [0.0] there, whatever the leaves would return inside. *)
Theorem quiet_is_zero (s : signal) (t : pynum) :
  quiet s t = true -> call s t = ret (PyFloat fzero).
Proof.
  induction s as [| ts te v | c ts te f | l IHl r IHr | l IHl r IHr
                 | l IHl r IHr | l IHl r IHr]; simpl; intros H;
    try discriminate;
    try (apply quiet_leaf; exact H);
    apply andb_true_iff in H; destruct H as [Hl Hr];
    rewrite (IHl Hl), (IHr Hr); reflexivity.
Qed.

(** [Const(value=7, t_start=0, t_end=1) * Const(value=2, t_start=3, t_end=4)]
    at [t = 2] *)
Lemma quiet_is_zero_witness :
  quiet (ProductOfSignals (Const (PyInt 0) (PyInt 1) (PyInt 7))
                          (Const (PyInt 3) (PyInt 4) (PyInt 2))) (PyInt 2) = true /\
  call (ProductOfSignals (Const (PyInt 0) (PyInt 1) (PyInt 7))
                         (Const (PyInt 3) (PyInt 4) (PyInt 2))) (PyInt 2)
  = ret (PyFloat fzero).
Proof.
  split; [reflexivity |].
  exact (@quiet_is_zero
           (ProductOfSignals (Const (PyInt 0) (PyInt 1) (PyInt 7))
                             (Const (PyInt 3) (PyInt 4) (PyInt 2)))
           (PyInt 2) eq_refl).
Defined.

(** X5: dividing by a windowed signal raises at every time outside the
    window of the denominator, where it is [0.0]: [ZeroDivisionError],
    or [OverflowError] when the numerator is an [int] too large for a
    float. *)
Theorem division_outside_window (a b : signal) (ts te : pynum)
    (local : pynum -> result pynum) (t x : pynum) :
  window_of b = Some (ts, te, local) -> in_window ts te t = false ->
  call a t = ret x ->
  call (DivisionOfSignals a b) t = raise ZeroDivisionError \/
  (as_float x = raise OverflowError /\
   call (DivisionOfSignals a b) t = raise OverflowError).
Proof.
  intros Hw Hout Ha.
  rewrite Literals.call_division, Ha, (Gating.call_windowed b t Hw).
  unfold Signal.__call__. unfold in_window in Hout. rewrite Hout.
  rewrite !bind_ret_l.
  apply (@Division.truediv_by_zero x (PyFloat fzero)). reflexivity.
Qed.

(** [Const(value=1) / Const(value=2, t_start=0, t_end=5)] at [t = 5] *)
Lemma division_outside_window_witness :
  in_window (PyInt 0) (PyInt 5) (PyInt 5) = false /\
  (call (DivisionOfSignals (ConstSignal.of_value (PyInt 1))
                           (Const (PyInt 0) (PyInt 5) (PyInt 2))) (PyInt 5)
   = raise ZeroDivisionError \/
   (as_float (PyInt 1) = raise OverflowError /\
    call (DivisionOfSignals (ConstSignal.of_value (PyInt 1))
                            (Const (PyInt 0) (PyInt 5) (PyInt 2))) (PyInt 5)
    = raise OverflowError)).
Proof.
  split; [reflexivity |].
  exact (@division_outside_window
           (ConstSignal.of_value (PyInt 1)) (Const (PyInt 0) (PyInt 5) (PyInt 2))
           (PyInt 0) (PyInt 5) (ConstSignal._signal (PyInt 2)) (PyInt 5) (PyInt 1)
           eq_refl eq_refl eq_refl).
Defined.

Lemma nothing_above_infinity (te : pynum) : py_lt PINF te = false.
Proof.
  unfold py_lt, compare_with. simpl.
  destruct (to_xreal te) as [y |]; [| reflexivity].
  unfold xlt. destruct y; reflexivity.
Qed.

(** X6: no window contains [+infinity] or a not-a-number: every
    windowed node, whatever its bounds and its rule, returns [0.0] at
    these two times. *)
Theorem never_active_at_infinity (s : signal) (ts te : pynum)
    (local : pynum -> result pynum) :
  window_of s = Some (ts, te, local) ->
  call s PINF = ret (PyFloat fzero) /\
  call s (PyFloat S754_nan) = ret (PyFloat fzero).
Proof.
  intros Hw. rewrite !(Gating.call_windowed s _ Hw). unfold Signal.__call__.
  rewrite nothing_above_infinity, andb_false_r. split; [reflexivity |].
  replace (py_le ts (PyFloat S754_nan)) with false; [reflexivity |].
  unfold py_le, compare_with. destruct (to_xreal ts); reflexivity.
Qed.

(** [Const(value=5, t_start=-inf, t_end=+inf)] *)
Lemma never_active_at_infinity_witness :
  call (Const NINF PINF (PyInt 5)) PINF = ret (PyFloat fzero) /\
  call (Const NINF PINF (PyInt 5)) (PyFloat S754_nan) = ret (PyFloat fzero).
Proof.
  exact (@never_active_at_infinity (Const NINF PINF (PyInt 5)) NINF PINF
           (ConstSignal._signal (PyInt 5)) eq_refl).
Defined.

Lemma arith_floats (iop : Z -> Z -> Z) (fop : spec_float -> spec_float -> spec_float)
    (f g : spec_float) :
  arith iop fop (PyFloat f) (PyFloat g) = ret (PyFloat (fop f g)).
Proof. reflexivity. Qed.

(** X7: an expression of sums, differences and products over constant
    leaves whose fields are all floats never raises at a float time,
    and its value is a float. *)
Theorem float_only_total (s : signal) (t : spec_float) :
  float_only s = true -> exists r, call s (PyFloat t) = ret (PyFloat r).
Proof.
  induction s as [| ts te v | c ts te f | l IHl r IHr | l IHl r IHr
                 | l IHl r IHr | l IHl r IHr]; simpl; intros H;
    try discriminate.
  - destruct ts as [| | ts]; try discriminate.
    destruct te as [| | te]; try discriminate.
    destruct v as [| | v]; try discriminate.
    unfold Signal.__call__.
    destruct (py_le (PyFloat ts) (PyFloat t) && py_lt (PyFloat t) (PyFloat te)).
    + exists v. reflexivity.
    + exists fzero. reflexivity.
  - apply andb_true_iff in H. destruct H as [Hl Hr].
    destruct (IHl Hl) as [x Hx], (IHr Hr) as [y Hy]. rewrite Hx, Hy.
    eexists. apply arith_floats.
  - apply andb_true_iff in H. destruct H as [Hl Hr].
    destruct (IHl Hl) as [x Hx], (IHr Hr) as [y Hy]. rewrite Hx, Hy.
    eexists. apply arith_floats.
  - apply andb_true_iff in H. destruct H as [Hl Hr].
    destruct (IHl Hl) as [x Hx], (IHr Hr) as [y Hy]. rewrite Hx, Hy.
    eexists. apply arith_floats.
Qed.

(** [Const(value=1.0, t_start=0.0, t_end=1.0) - Const(value=1.0)] at
    [t = 1.0] *)
Lemma float_only_total_witness :
  exists r,
    call (DifferenceOfSignals
            (Const (PyFloat fzero) (PyFloat fone) (PyFloat fone))
            (Const NINF PINF (PyFloat fone))) (PyFloat fone)
    = ret (PyFloat r).
Proof.
  exact (@float_only_total
           (DifferenceOfSignals
              (Const (PyFloat fzero) (PyFloat fone) (PyFloat fone))
              (Const NINF PINF (PyFloat fone))) fone eq_refl).
Defined.

End Evaluation.

(* ===================================================================== *)
(** * Windows side by side, shifted, and by default *)
(* ===================================================================== *)

Module Windows.

Lemma in_window_xreal (a b t : pynum) (xa xb xt : xreal) :
  to_xreal a = Some xa -> to_xreal b = Some xb -> to_xreal t = Some xt ->
  in_window a b t = xle xa xt && negb (xle xb xt).
Proof.
  intros Ha Hb Ht. unfold in_window, py_le, py_lt, compare_with, xlt.
  rewrite Ha, Hb, Ht. reflexivity.
Qed.

Lemma in_window_nan (a b t : pynum) : to_xreal t = None -> in_window a b t = false.
Proof.
  intros Ht. unfold in_window, py_le, compare_with. rewrite Ht.
  destruct (to_xreal a); reflexivity.
Qed.

(** Two windows [[a, b)] and [[b, c)] with [a <= b <= c] split the
    window [[a, c)]. *)
Lemma window_split (a b c t : pynum) :
  py_le a b = true -> py_le b c = true ->
  in_window a c t = in_window a b t || in_window b c t.
Proof.
  intros Hab Hbc.
  apply Order.py_le_true in Hab. destruct Hab as (xa & xb & Ha & Hb & Hab).
  apply Order.py_le_true in Hbc. destruct Hbc as (xb' & xc & Hb' & Hc & Hbc).
  rewrite Hb in Hb'. inversion Hb'; subst xb'.
  destruct (to_xreal t) as [xt |] eqn:Ht.
  - rewrite (in_window_xreal a c t Ha Hc Ht), (in_window_xreal a b t Ha Hb Ht),
      (in_window_xreal b c t Hb Hc Ht).
    destruct (xle xa xt) eqn:E1, (xle xb xt) eqn:E2, (xle xc xt) eqn:E3;
      simpl; try reflexivity; exfalso.
    + apply Order.xle_true in E3. apply Order.xle_false in E2. apply E2.
      apply Order.xle_prop_trans with xc; assumption.
    + apply Order.xle_true in E2. apply Order.xle_false in E1. apply E1.
      apply Order.xle_prop_trans with xb; assumption.
  - rewrite !(in_window_nan _ _ t Ht). reflexivity.
Qed.

(** No time is before [b] and not before [b]. *)
Lemma window_disjoint (a b c t : pynum) :
  in_window a b t = true -> in_window b c t = true -> False.
Proof.
  unfold in_window. rewrite !andb_true_iff. intros [_ Hlt] [Hle _].
  apply Order.py_lt_true in Hlt. destruct Hlt as (xt & xb & Ht & Hb & Hn).
  apply Order.py_le_true in Hle. destruct Hle as (xb' & xt' & Hb' & Ht' & Hle).
  rewrite Hb in Hb'. rewrite Ht in Ht'. inversion Hb'; inversion Ht'; subst.
  contradiction.
Qed.

(** A constant leaf with float fields at a float time. *)
Lemma const_float_call (a b v t : spec_float) :
  call (Const (PyFloat a) (PyFloat b) (PyFloat v)) (PyFloat t)
  = ret (PyFloat (if in_window (PyFloat a) (PyFloat b) (PyFloat t) then v else fzero)).
Proof.
  simpl. unfold Signal.__call__, in_window.
  destruct (py_le (PyFloat a) (PyFloat t) && py_lt (PyFloat t) (PyFloat b));
    reflexivity.
Qed.

(** X8: of two windowed nodes whose windows [[a, b)] and [[b, c)] meet
    at [b], at most one runs its rule at any time: their sum is the
    value of the first plus [0.0], or [0.0] plus the value of the
    second, or [0.0].  For float bounds [a <= b <= c] and a float value
    other than a not-a-number, the sum of the constant on [[a, b)] and
    the same constant on [[b, c)] equals, at every float time, the
    constant on [[a, c)]: no gap and no instant counted twice. *)
Theorem adjacent_windows :
  (forall (cls1 cls2 : string) (f g : pynum -> result pynum) (a b c t : pynum),
     call (SumOfSignals (Leaf cls1 a b f) (Leaf cls2 b c g)) t
     = (x <- (tau <- py_sub t a ;; f tau) ;; py_add x (PyFloat fzero)) \/
     call (SumOfSignals (Leaf cls1 a b f) (Leaf cls2 b c g)) t
     = (y <- (tau <- py_sub t b ;; g tau) ;; py_add (PyFloat fzero) y) \/
     call (SumOfSignals (Leaf cls1 a b f) (Leaf cls2 b c g)) t = ret (PyFloat fzero)) /\
  (forall a b c v t : spec_float,
     py_le (PyFloat a) (PyFloat b) = true -> py_le (PyFloat b) (PyFloat c) = true ->
     is_nan (PyFloat v) = false ->
     exists w u,
       call (SumOfSignals (Const (PyFloat a) (PyFloat b) (PyFloat v))
                          (Const (PyFloat b) (PyFloat c) (PyFloat v))) (PyFloat t)
       = ret w /\
       call (Const (PyFloat a) (PyFloat c) (PyFloat v)) (PyFloat t) = ret u /\
       py_eq w u = true).
Proof.
  split.
  - intros cls1 cls2 f g a b c t. rewrite Literals.call_sum. simpl call.
    unfold Signal.__call__.
    destruct (py_le a t && py_lt t b) eqn:E1, (py_le b t && py_lt t c) eqn:E2.
    + exfalso. exact (window_disjoint a b c t E1 E2).
    + left. reflexivity.
    + right. left. reflexivity.
    + right. right. reflexivity.
  - intros a b c v t Hab Hbc Hv.
    rewrite Literals.call_sum, !const_float_call, !bind_ret_l.
    rewrite (window_split (PyFloat a) (PyFloat b) (PyFloat c) (PyFloat t) Hab Hbc).
    unfold py_add. rewrite Evaluation.arith_floats.
    eexists. eexists. split; [reflexivity |]. split; [reflexivity |].
    destruct (in_window (PyFloat a) (PyFloat b) (PyFloat t)) eqn:E1,
             (in_window (PyFloat b) (PyFloat c) (PyFloat t)) eqn:E2; simpl orb.
    + exfalso. exact (window_disjoint _ _ _ _ E1 E2).
    + destruct (FloatFacts.SFadd_zero_r v) as [E | [Ez E]]; rewrite E.
      * apply Order.py_eq_refl. exact Hv.
      * rewrite Ez. reflexivity.
    + rewrite Commutativity.SFadd_comm.
      destruct (FloatFacts.SFadd_zero_r v) as [E | [Ez E]]; rewrite E.
      * apply Order.py_eq_refl. exact Hv.
      * rewrite Ez. reflexivity.
    + reflexivity.
Qed.

(** the constant [1.0] on [[0.0, 1.0)] and on [[1.0, 2.0)], at the
    meeting point [t = 1.0] *)
Lemma adjacent_windows_witness :
  py_le (PyFloat fzero) (PyFloat fone) = true /\
  py_le (PyFloat fone) (PyFloat (S754_finite false 4503599627370496 (-51))) = true /\
  exists w u,
    call (SumOfSignals
            (Const (PyFloat fzero) (PyFloat fone) (PyFloat fone))
            (Const (PyFloat fone) (PyFloat (S754_finite false 4503599627370496 (-51)))
               (PyFloat fone))) (PyFloat fone) = ret w /\
    call (Const (PyFloat fzero) (PyFloat (S754_finite false 4503599627370496 (-51)))
            (PyFloat fone)) (PyFloat fone) = ret u /\
    py_eq w u = true.
Proof.
  split; [reflexivity |]. split; [reflexivity |].
  exact (proj2 adjacent_windows fzero fone
           (S754_finite false 4503599627370496 (-51)) fone fone
           eq_refl eq_refl eq_refl).
Defined.

Lemma py_le_int (x y : Z) : py_le (PyInt x) (PyInt y) = (x <=? y)%Z.
Proof.
  unfold py_le, compare_with. simpl. unfold Qle_bool. simpl.
  rewrite !Z.mul_1_r. reflexivity.
Qed.

Lemma py_lt_int (x y : Z) : py_lt (PyInt x) (PyInt y) = (x <? y)%Z.
Proof.
  unfold py_lt, compare_with, xlt. simpl. unfold Qle_bool. simpl.
  rewrite !Z.mul_1_r. rewrite Z.ltb_antisym. reflexivity.
Qed.

Lemma py_lt_int_inf (x : Z) : py_lt (PyInt x) PINF = true.
Proof. reflexivity. Qed.

(** X9: with integer times, moving the window of a node and the time of
    the evaluation by the same integer [d] changes nothing: the node is
    active at the same moments of its window and its rule sees the same
    local time.  This holds for a bounded window and for one open to
    [+infinity]. *)
Theorem integer_shift (cls : string) (rule : pynum -> result pynum)
    (t_start t_end t d : Z) :
  call (Leaf cls (PyInt (t_start + d)) (PyInt (t_end + d)) rule) (PyInt (t + d))
  = call (Leaf cls (PyInt t_start) (PyInt t_end) rule) (PyInt t) /\
  call (Leaf cls (PyInt (t_start + d)) PINF rule) (PyInt (t + d))
  = call (Leaf cls (PyInt t_start) PINF rule) (PyInt t).
Proof.
  simpl. unfold Signal.__call__.
  rewrite !py_le_int, !py_lt_int, !py_lt_int_inf.
  replace (t_start + d <=? t + d)%Z with (t_start <=? t)%Z
    by (destruct (Z.leb_spec t_start t), (Z.leb_spec (t_start + d) (t + d)); lia).
  replace (t + d <? t_end + d)%Z with (t <? t_end)%Z
    by (destruct (Z.ltb_spec t t_end), (Z.ltb_spec (t + d) (t_end + d)); lia).
  replace (py_sub (PyInt (t + d)) (PyInt (t_start + d)))
    with (py_sub (PyInt t) (PyInt t_start))
    by (unfold py_sub, arith; simpl; unfold ret; do 2 f_equal; lia).
  split; reflexivity.
Qed.

Lemma SFsub_zero_r (f : spec_float) : SFsub prec emax f fzero = f.
Proof. destruct f as [[|] | [|] | | s m e]; reflexivity. Qed.

(** X10: a signal that keeps the default window of [Signal],
    [t_start = 0.0] and [t_end = +infinity], applies its rule to the
    time itself at every float time [0.0 <= t < +infinity] (the shift
    by [0.0] is exact) and is [0.0] at every negative float time. *)
Theorem default_window (cls : string) (rule : pynum -> result pynum) (t : spec_float) :
  Dataclass.attr Signal.fields [] "t_start" = PyFloat fzero /\
  Dataclass.attr Signal.fields [] "t_end" = PINF /\
  (in_window (PyFloat fzero) PINF (PyFloat t) = true ->
   call (Leaf cls (PyFloat fzero) PINF rule) (PyFloat t) = rule (PyFloat t)) /\
  (py_lt (PyFloat t) (PyFloat fzero) = true ->
   call (Leaf cls (PyFloat fzero) PINF rule) (PyFloat t) = ret (PyFloat fzero)).
Proof.
  split; [reflexivity |]. split; [reflexivity |]. split.
  - intros Hin. simpl. unfold Signal.__call__. unfold in_window in Hin.
    rewrite Hin. unfold py_sub. rewrite Evaluation.arith_floats, bind_ret_l.
    rewrite SFsub_zero_r. reflexivity.
  - intros Hneg. simpl. unfold Signal.__call__.
    replace (py_le (PyFloat fzero) (PyFloat t)) with false; [reflexivity |].
    symmetry. apply Order.py_lt_true in Hneg.
    destruct Hneg as (x & y & Hx & Hy & Hn).
    destruct (py_le (PyFloat fzero) (PyFloat t)) eqn:E; [| reflexivity].
    apply Order.py_le_true in E. destruct E as (y' & x' & Hy' & Hx' & Hle).
    rewrite Hx in Hx'. rewrite Hy in Hy'. inversion Hx'; inversion Hy'; subst.
    contradiction.
Qed.

(** a rule that doubles its local time, at [t = 1.0] *)
Lemma default_window_witness :
  in_window (PyFloat fzero) PINF (PyFloat fone) = true /\
  call (Leaf "Ramp" (PyFloat fzero) PINF (fun tau => py_add tau tau)) (PyFloat fone)
  = py_add (PyFloat fone) (PyFloat fone).
Proof.
  split; [reflexivity |].
  exact (proj1 (proj2 (proj2
    (@default_window "Ramp" (fun tau => py_add tau tau) fone))) eq_refl).
Defined.

End Windows.

(* ===================================================================== *)
(** * Batches, piece by piece *)
(* ===================================================================== *)

Module BatchSplit.

Import NumPy.

Lemma mapM_app {A B : Type} (f : A -> result B) (l1 l2 : list A) :
  mapM f (l1 ++ l2)
  = (r1 <- mapM f l1 ;; r2 <- mapM f l2 ;; ret (r1 ++ r2)%list).
Proof.
  induction l1 as [| x xs IH]; simpl.
  - destruct (mapM f l2); reflexivity.
  - destruct (f x) as [e | y]; simpl; [reflexivity |].
    rewrite IH. destruct (mapM f xs) as [e | ys]; simpl; [reflexivity |].
    destruct (mapM f l2); reflexivity.
Qed.

(** Where every evaluation returns a float, the batch is the [float64]
    array of these floats. *)
Lemma eval_on_floats (s : signal) (ts : list pynum) :
  (forall t, In t ts -> exists f, call s t = ret (PyFloat f)) ->
  exists rs, mapM (call s) ts = ret rs /\
             Forall (fun r => is_float r = true) rs /\
             BaseSignal.eval_on s ts = ret {| dtype_of := DFloat64; items := rs |}.
Proof.
  intros H.
  assert (Hrs : exists rs, mapM (call s) ts = ret rs /\
                           Forall (fun r => is_float r = true) rs).
  { induction ts as [| t ts IH].
    - exists []. split; [reflexivity | constructor].
    - destruct (H t (or_introl eq_refl)) as [f Hf].
      destruct IH as (rs & Hrs & Hall).
      + intros t' Ht'. apply H. right. exact Ht'.
      + exists (PyFloat f :: rs). simpl. rewrite Hf, Hrs. split; [reflexivity |].
        constructor; [reflexivity | exact Hall]. }
  destruct Hrs as (rs & Hrs & Hall). exists rs.
  split; [exact Hrs |]. split; [exact Hall |].
  unfold BaseSignal.eval_on. rewrite Hrs, bind_ret_l, (Batch.array_of_floats Hall).
  reflexivity.
Qed.

(** X11: the empty batch gives the empty [float64] array; a batch in
    two pieces returns exactly when both pieces return; and where every
    evaluation returns a float, the array of the whole batch holds the
    elements of the array of the first piece followed by those of the
    second. *)
Theorem eval_on_concat (s : signal) (ts1 ts2 : list pynum) :
  BaseSignal.eval_on s [] = ret {| dtype_of := DFloat64; items := [] |} /\
  returns (BaseSignal.eval_on s (ts1 ++ ts2))
  = returns (BaseSignal.eval_on s ts1) && returns (BaseSignal.eval_on s ts2) /\
  ((forall t, In t (ts1 ++ ts2) -> exists f, call s t = ret (PyFloat f)) ->
   exists r1 r2,
     BaseSignal.eval_on s ts1 = ret {| dtype_of := DFloat64; items := r1 |} /\
     BaseSignal.eval_on s ts2 = ret {| dtype_of := DFloat64; items := r2 |} /\
     BaseSignal.eval_on s (ts1 ++ ts2)
     = ret {| dtype_of := DFloat64; items := (r1 ++ r2)%list |}).
Proof.
  split; [reflexivity |]. split.
  - rewrite !Batch.returns_eval_on, mapM_app.
    destruct (mapM (call s) ts1); simpl; [reflexivity |].
    destruct (mapM (call s) ts2); reflexivity.
  - intros H.
    destruct (eval_on_floats s ts1) as (r1 & Hm1 & _ & H1).
    { intros t Ht. apply H. apply in_or_app. left. exact Ht. }
    destruct (eval_on_floats s ts2) as (r2 & Hm2 & _ & H2).
    { intros t Ht. apply H. apply in_or_app. right. exact Ht. }
    destruct (eval_on_floats s (ts1 ++ ts2) H) as (r & Hm & _ & Hr).
    exists r1, r2. split; [exact H1 |]. split; [exact H2 |].
    rewrite mapM_app, Hm1, Hm2 in Hm. simpl in Hm. inversion Hm; subst r.
    exact Hr.
Qed.

(** [Const(value=1.0, t_start=1.0)] on [[0.0] ++ [1.0]] *)
Lemma eval_on_concat_witness :
  exists r1 r2,
    BaseSignal.eval_on (Const (PyFloat fone) PINF (PyFloat fone)) [PyFloat fzero]
    = ret {| dtype_of := DFloat64; items := r1 |} /\
    BaseSignal.eval_on (Const (PyFloat fone) PINF (PyFloat fone)) [PyFloat fone]
    = ret {| dtype_of := DFloat64; items := r2 |} /\
    BaseSignal.eval_on (Const (PyFloat fone) PINF (PyFloat fone))
      ([PyFloat fzero] ++ [PyFloat fone])
    = ret {| dtype_of := DFloat64; items := (r1 ++ r2)%list |}.
Proof.
  apply (proj2 (proj2
    (eval_on_concat (Const (PyFloat fone) PINF (PyFloat fone))
       [PyFloat fzero] [PyFloat fone]))).
  intros t [Ht | [Ht | []]]; subst t.
  - exists fzero. reflexivity.
  - exists fone. reflexivity.
Defined.

(** X12: a batch raises the exception of the first timestamp whose
    evaluation raises: the values of the timestamps before it are lost
    and the timestamps after it are not evaluated. *)
Theorem eval_on_first_error (s : signal) (before after : list pynum)
    (t : pynum) (e : exn) :
  (forall t', In t' before -> returns (call s t') = true) ->
  call s t = raise e ->
  BaseSignal.eval_on s (before ++ t :: after) = raise e.
Proof.
  intros Hb Ht. unfold BaseSignal.eval_on.
  destruct (returns_true_inv _ (Batch.mapM_returns (call s) before Hb)) as [rs Hrs].
  rewrite mapM_app, Hrs, bind_ret_l. simpl. rewrite Ht. reflexivity.
Qed.

(** [Const(value=1) / Const(value=1, t_start=0, t_end=2)] on
    [[0, 1, 2, 3]]: it returns at [0] and [1] and raises at [2]. *)
Lemma eval_on_first_error_witness :
  call (DivisionOfSignals (ConstSignal.of_value (PyInt 1))
                          (Const (PyInt 0) (PyInt 2) (PyInt 1))) (PyInt 0)
  = ret (PyFloat fone) /\
  call (DivisionOfSignals (ConstSignal.of_value (PyInt 1))
                          (Const (PyInt 0) (PyInt 2) (PyInt 1))) (PyInt 1)
  = ret (PyFloat fone) /\
  call (DivisionOfSignals (ConstSignal.of_value (PyInt 1))
                          (Const (PyInt 0) (PyInt 2) (PyInt 1))) (PyInt 2)
  = raise ZeroDivisionError /\
  BaseSignal.eval_on
    (DivisionOfSignals (ConstSignal.of_value (PyInt 1))
                       (Const (PyInt 0) (PyInt 2) (PyInt 1)))
    ([PyInt 0; PyInt 1] ++ PyInt 2 :: [PyInt 3])
  = raise ZeroDivisionError.
Proof.
  repeat (split; [reflexivity |]).
  apply (@eval_on_first_error
           (DivisionOfSignals (ConstSignal.of_value (PyInt 1))
                              (Const (PyInt 0) (PyInt 2) (PyInt 1)))
           [PyInt 0; PyInt 1] [PyInt 3] (PyInt 2) ZeroDivisionError).
  - intros t' [Ht | [Ht | []]]; subst t'; reflexivity.
  - reflexivity.
Defined.

End BatchSplit.

(* ===================================================================== *)
(** * Arguments of the constructor; a signal minus itself *)
(* ===================================================================== *)

Module Arguments.

Local Open Scope string_scope.

Lemma unknown_keyword (fs : list Dataclass.field) (bound rest : list (string * pynum))
    (name : string) (v : pynum) :
  Dataclass.lookup name fs = None ->
  exists msg, Dataclass.bind_keywords fs bound ((name, v) :: rest)
              = raise (TypeError msg).
Proof. intros H. simpl. rewrite H. eexists. reflexivity. Qed.

(** X13: the constructor of [Const] takes [t_start], [t_end], [value]
    positionally in this order, or by keyword in any order, or mixed,
    with the defaults [-inf], [+inf], [0.0] for what is left out; a
    fourth positional argument, a field given twice and an unknown
    keyword raise [TypeError]. *)
Theorem constructor_arguments (ts te v : pynum) :
  ConstSignal.new [] [] = ret (Const NINF PINF (PyFloat fzero)) /\
  ConstSignal.new [ts] [] = ret (Const ts PINF (PyFloat fzero)) /\
  ConstSignal.new [ts; te] [] = ret (Const ts te (PyFloat fzero)) /\
  ConstSignal.new [ts] [("value", v)] = ret (Const ts PINF v) /\
  ConstSignal.new [ts; te] [("value", v)] = ret (Const ts te v) /\
  ConstSignal.new [] [("t_end", te); ("value", v); ("t_start", ts)]
  = ret (Const ts te v) /\
  ConstSignal.new [] [("t_start", ts); ("t_end", te)]
  = ret (Const ts te (PyFloat fzero)) /\
  (forall extra rest kwargs,
     exists msg, ConstSignal.new (ts :: te :: v :: extra :: rest) kwargs
                 = raise (TypeError msg)) /\
  (forall again, exists msg,
     ConstSignal.new [ts] [("t_start", again)] = raise (TypeError msg)) /\
  (forall name, Dataclass.lookup name ConstSignal.fields = None ->
     exists msg, ConstSignal.new [] [(name, v)] = raise (TypeError msg)).
Proof.
  repeat (split; [reflexivity |]).
  split; [| split].
  - intros extra rest kwargs. eexists. reflexivity.
  - intros again. eexists. reflexivity.
  - intros name Hname. unfold ConstSignal.new, Dataclass.init.
    change (Dataclass.bind_positional ConstSignal.fields [])
      with (@ret (list (string * pynum)) []).
    rewrite bind_ret_l.
    destruct (unknown_keyword ConstSignal.fields [] [] name v Hname) as [msg E].
    exists msg. rewrite E. reflexivity.
Qed.

(** the keyword [values] is not a field *)
Lemma constructor_arguments_witness :
  Dataclass.lookup "values" ConstSignal.fields = None /\
  exists msg, ConstSignal.new [] [("values", PyInt 2)] = raise (TypeError msg).
Proof.
  split; [reflexivity |].
  exact (proj2 (proj2 (proj2 (proj2 (proj2 (proj2 (proj2 (proj2 (proj2
    (constructor_arguments (PyInt 0) (PyInt 1) (PyInt 2)))))))))) "values" eq_refl).
Defined.

Lemma SFsub_diag (f : spec_float) :
  is_finite (PyFloat f) = true -> SFsub prec emax f f = fzero.
Proof.
  destruct f as [[|] | s | | s m e]; simpl; intros H; try discriminate;
    try reflexivity.
  rewrite Z.sub_diag. reflexivity.
Qed.

(** X14: the same node can be used on both sides of an operator; where
    it returns a finite number, [(a - a)(t)] is zero. *)
Theorem self_difference (a : signal) (t x : pynum) :
  call a t = ret x -> is_finite x = true ->
  exists w, call (DifferenceOfSignals a a) t = ret w /\ py_eq w (PyInt 0) = true.
Proof.
  intros Ha Hfin. rewrite Literals.call_difference, Ha, !bind_ret_l.
  destruct x as [b | z | f].
  - exists (PyInt (Z.b2z b - Z.b2z b)). split; [reflexivity |].
    rewrite Z.sub_diag. reflexivity.
  - exists (PyInt (z - z)). split; [reflexivity |].
    rewrite Z.sub_diag. reflexivity.
  - exists (PyFloat fzero). split; [| reflexivity].
    unfold py_sub. rewrite Evaluation.arith_floats, (SFsub_diag f Hfin).
    reflexivity.
Qed.

(** [a = Const(value=0.1)] at [t = 0] *)
Lemma self_difference_witness :
  exists w,
    call (DifferenceOfSignals
            (ConstSignal.of_value (PyFloat (S754_finite false 7205759403792794 (-56))))
            (ConstSignal.of_value (PyFloat (S754_finite false 7205759403792794 (-56)))))
      (PyInt 0) = ret w /\
    py_eq w (PyInt 0) = true.
Proof.
  exact (@self_difference
           (ConstSignal.of_value (PyFloat (S754_finite false 7205759403792794 (-56))))
           (PyInt 0) (PyFloat (S754_finite false 7205759403792794 (-56)))
           eq_refl eq_refl).
Defined.

End Arguments.

(* ===================================================================== *)
(** * The exceptions of an evaluation *)
(* ===================================================================== *)

Module Exceptions.

Lemma float_of_int_error (z : Z) (e : exn) :
  float_of_int z = raise e -> e = OverflowError.
Proof.
  unfold float_of_int.
  destruct (binary_normalize prec emax z 0 false); intros H; inversion H;
    reflexivity.
Qed.

Lemma as_float_error (n : pynum) (e : exn) :
  as_float n = raise e -> e = OverflowError.
Proof.
  destruct n as [b | z | f]; simpl.
  - apply float_of_int_error.
  - apply float_of_int_error.
  - intros H. inversion H.
Qed.

Lemma arith_error (iop : Z -> Z -> Z) (fop : spec_float -> spec_float -> spec_float)
    (a b : pynum) (e : exn) :
  arith iop fop a b = raise e -> e = OverflowError.
Proof.
  unfold arith.
  assert (H : (x <- as_float a ;; y <- as_float b ;; ret (PyFloat (fop x y)))
              = raise e -> e = OverflowError).
  { destruct (as_float a) as [ea | x] eqn:Ea; simpl.
    - intros H. inversion H; subst. apply (as_float_error a Ea).
    - destruct (as_float b) as [eb | y] eqn:Eb; simpl; intros H; inversion H; subst.
      apply (as_float_error b Eb). }
  destruct (as_int a), (as_int b); try exact H.
  intros H'. inversion H'.
Qed.

Lemma truediv_error (a b : pynum) (e : exn) :
  py_truediv a b = raise e -> arithmetic_error e = true.
Proof.
  unfold py_truediv.
  assert (H : (x <- as_float a ;; y <- as_float b ;;
               (if fis_zero y then raise ZeroDivisionError
                else ret (PyFloat (SFdiv prec emax x y))))
              = raise e -> arithmetic_error e = true).
  { destruct (as_float a) as [ea | x] eqn:Ea; simpl.
    - intros H. inversion H; subst. rewrite (as_float_error a Ea). reflexivity.
    - destruct (as_float b) as [eb | y] eqn:Eb; simpl.
      + intros H. inversion H; subst. rewrite (as_float_error b Eb). reflexivity.
      + destruct (fis_zero y); intros H; inversion H. reflexivity. }
  destruct (as_int a) as [x |], (as_int b) as [y |]; try exact H.
  unfold int_true_divide. destruct (y =? 0)%Z.
  - intros H'. inversion H'. reflexivity.
  - destruct x;
      try (intros H'; inversion H'; fail);
      match goal with
      | |- match ?d with _ => _ end = _ -> _ =>
          destruct d; intros H'; inversion H'; reflexivity
      end.
Qed.

(** The gate returns [0.0], or hands the local time to the rule, or
    raises [OverflowError] in the subtraction. *)
Lemma gate_cases (ts te : pynum) (local : pynum -> result pynum) (t : pynum) :
  Signal.__call__ ts te local t = ret (PyFloat fzero) \/
  (exists tau, py_sub t ts = ret tau /\ Signal.__call__ ts te local t = local tau) \/
  Signal.__call__ ts te local t = raise OverflowError.
Proof.
  unfold Signal.__call__.
  destruct (py_le ts t && py_lt t te); [| left; reflexivity].
  destruct (py_sub t ts) as [e | tau] eqn:E; simpl.
  - right. right. unfold py_sub in E. rewrite (arith_error _ _ _ _ E). reflexivity.
  - right. left. exists tau. split; reflexivity.
Qed.

(** X15: a constant leaf has three outcomes at any time: its value,
    [0.0], or [OverflowError] (from the subtraction [t - t_start] of an
    [int] too large for a float); it returns nothing else. *)
Theorem const_outcomes (t_start t_end value t : pynum) :
  call (Const t_start t_end value) t = ret value \/
  call (Const t_start t_end value) t = ret (PyFloat fzero) \/
  call (Const t_start t_end value) t = raise OverflowError.
Proof.
  destruct (gate_cases t_start t_end (ConstSignal._signal value) t)
    as [H | [[tau [_ H]] | H]].
  - right. left. exact H.
  - left. exact H.
  - right. right. exact H.
Qed.

(** X16: evaluating an expression built with the four operators from
    constant leaves raises nothing but [ZeroDivisionError] and
    [OverflowError]: no [TypeError] and no [NotImplementedError] is
    left for evaluation time. *)
Theorem evaluation_errors (s : signal) (t : pynum) (e : exn) :
  const_expr s = true -> call s t = raise e -> arithmetic_error e = true.
Proof.
  revert e.
  induction s as [| ts te v | c ts te f | l IHl r IHr | l IHl r IHr
                 | l IHl r IHr | l IHl r IHr]; intros e Hs He;
    try discriminate.
  - simpl in He.
    destruct (gate_cases ts te (ConstSignal._signal v) t) as [H | [[tau [_ H]] | H]];
      rewrite H in He; inversion He. reflexivity.
  - simpl in Hs. apply andb_true_iff in Hs. destruct Hs as [Hl Hr].
    rewrite Literals.call_sum in He.
    destruct (call l t) as [el | x]; simpl in He;
      [inversion He; subst; apply IHl; auto |].
    destruct (call r t) as [er | y]; simpl in He;
      [inversion He; subst; apply IHr; auto |].
    unfold py_add in He. rewrite (arith_error _ _ _ _ He). reflexivity.
  - simpl in Hs. apply andb_true_iff in Hs. destruct Hs as [Hl Hr].
    rewrite Literals.call_difference in He.
    destruct (call l t) as [el | x]; simpl in He;
      [inversion He; subst; apply IHl; auto |].
    destruct (call r t) as [er | y]; simpl in He;
      [inversion He; subst; apply IHr; auto |].
    unfold py_sub in He. rewrite (arith_error _ _ _ _ He). reflexivity.
  - simpl in Hs. apply andb_true_iff in Hs. destruct Hs as [Hl Hr].
    rewrite Literals.call_product in He.
    destruct (call l t) as [el | x]; simpl in He;
      [inversion He; subst; apply IHl; auto |].
    destruct (call r t) as [er | y]; simpl in He;
      [inversion He; subst; apply IHr; auto |].
    unfold py_mul in He. rewrite (arith_error _ _ _ _ He). reflexivity.
  - simpl in Hs. apply andb_true_iff in Hs. destruct Hs as [Hl Hr].
    rewrite Literals.call_division in He.
    destruct (call l t) as [el | x]; simpl in He;
      [inversion He; subst; apply IHl; auto |].
    destruct (call r t) as [er | y]; simpl in He;
      [inversion He; subst; apply IHr; auto |].
    apply (truediv_error x y He).
Qed.

(** [(Const(value=1) / Const(value=0))(0)] *)
Lemma evaluation_errors_witness :
  call (DivisionOfSignals (ConstSignal.of_value (PyInt 1))
                          (ConstSignal.of_value (PyInt 0))) (PyInt 0)
  = raise ZeroDivisionError /\
  arithmetic_error ZeroDivisionError = true.
Proof.
  split; [reflexivity |].
  exact (@evaluation_errors
           (DivisionOfSignals (ConstSignal.of_value (PyInt 1))
                              (ConstSignal.of_value (PyInt 0)))
           (PyInt 0) ZeroDivisionError eq_refl eq_refl).
Defined.

End Exceptions.
